(** * Chat service and users controller of the crash-game backend

    A shallow embedding of the chat message service (the two aggregation
    queries [getLatestChatMessagesByRoom] and [getLatestChatMessagesByUserId],
    and [setMessageRead]) and of the controllers [getLeaderboard],
    [bindWalletAddress], [updateUser], [confirmEmail],
    [saveAcceptConditions] (with [rewardRefUserIfNotConfirmed]) and
    [saveAdditionalInformation] of [controllers/users-controller.js].

    Collections of the document store are finite maps from the document's
    [_id] to the document, so an [_id] is unique by construction.  The clock
    read by [new Date()] is an explicit argument.  A promise is its outcome:
    resolved with a value or rejected with an error. *)

From stdpp Require Import gmap strings list fin_maps sorting pretty.

(** ** Data model *)

(** A Mongo [ObjectId], compared through its string form. *)
Abbreviation ObjectId := string.

(** A chat message document; [_id] is the key of the collection.  [read] is
    absent until [setMessageRead] writes it. *)
Record ChatMessage := mkChatMessage {
  roomId : ObjectId;
  userId : ObjectId;
  type : string;
  message : string;
  payload : option string;
  date : Z;
  read : option Z
}.

(** A user document.  [admin] is a Boolean path that may be absent
    ([None] is JavaScript's [undefined]). *)
Record User := mkUser {
  username : option string;
  name : option string;
  profilePicture : option string;
  walletAddress : option string;
  admin : option bool;
  amountWon : Z
}.

(** The authenticated user a request carries: its id and its admin flag. *)
Record RequestingUser := mkRequestingUser {
  ru_id : ObjectId;
  ru_admin : option bool
}.

(** What a promise of the chat service rejects with. *)
Inductive Error :=
  | NotFoundError
  | ForbiddenError
  | MongoError (msg : string).

Inductive Promise (A : Type) :=
  | Resolved (a : A)
  | Rejected (e : Error).
Arguments Resolved {A} a.
Arguments Rejected {A} e.

(** What a [try] block of a controller can catch, with its [message]. *)
Inductive Thrown :=
  | ReferenceError (msg : string)
  | TypeError (msg : string)
  | ServiceError (msg : string).

(** A statement or an awaited call in a controller: it completes with a
    value or throws. *)
Inductive Outcome (A : Type) :=
  | Returned (a : A)
  | Threw (e : Thrown).
Arguments Returned {A} a.
Arguments Threw {A} e.

(** JavaScript truthiness of an optional Boolean: [undefined] and [false]
    are falsy. *)
Definition truthy (b : option bool) : bool :=
  match b with Some true => true | _ => false end.

Definition set_read (now : Z) (m : ChatMessage) : ChatMessage :=
  {| roomId := roomId m; userId := userId m; type := type m;
     message := message m; payload := payload m; date := date m;
     read := Some now |}.

(** ** Aggregation stages *)

Section stages.
Context {A : Type}.

(** [$group: { _id: null, count: { $sum: 1 } }]: one group holding the number
    of input documents, and no group at all when there is no input. *)
Definition group_count (docs : list A) : list nat :=
  match docs with
  | [] => []
  | _ :: _ => [length docs]
  end.

(** [$skip] and [$limit]. *)
Definition stage_skip (n : nat) (docs : list A) : list A := drop n docs.
Definition stage_limit (n : nat) (docs : list A) : list A := take n docs.

(** [$unwind: '$total']: one output document per element of the [total]
    array, hence none when that array is empty. *)
Definition unwind_total {D : Type} (facet : list nat * D) : list (nat * D) :=
  (λ t, (t, facet.2)) <$> facet.1.
End stages.

(** The server parses the whole pipeline before it runs it, and [$limit]
    accepts a positive number only. *)
Definition pipeline_accepted (limit : nat) : bool :=
  match limit with O => false | S _ => true end.

Definition limit_must_be_positive : Error :=
  MongoError "the limit must be positive".

(** [$sort: { date: -1 }]: most recent first. *)
Definition date_desc (a b : ObjectId * ChatMessage) : Prop :=
  (date a.2 >= date b.2)%Z.

Global Instance date_desc_dec a b : Decision (date_desc a b).
Proof. unfold date_desc. apply _. Defined.

Definition sort_date_desc (docs : list (ObjectId * ChatMessage)) :
  list (ObjectId * ChatMessage) :=
  merge_sort date_desc docs.

(** ** chat-message-service *)

Module Sender.
(** The sender snapshot of a room message; a path missing on the joined
    user is missing here. *)
Record t := mk {
    username : option string;
    name : option string;
    profilePicture : option string
  }.
Definition empty : t := mk None None None.
End Sender.

Module RoomItem.
(** What the inner [$project] of the room query keeps. *)
Record t := mk {
    _id : ObjectId;
    userId : ObjectId;
    roomId : ObjectId;
    type : string;
    message : string;
    date : Z;
    user : Sender.t
  }.
End RoomItem.

Module UserItem.
(** What the inner [$project] of the by-user query keeps. *)
Record t := mk {
    _id : ObjectId;
    userId : ObjectId;
    roomId : ObjectId;
    type : string;
    message : string;
    date : Z;
    payload : option string
  }.
End UserItem.

(** The outer [$project]: [{ total, data }]. *)
Record Page (D : Type) := mkPage {
  total : nat;
  data : list D
}.
Arguments mkPage {D} total data.
Arguments total {D} p.
Arguments data {D} p.

(** [$lookup] from [users] on [userId = _id], delivered as the array [user]. *)
Definition lookup_user (us : gmap ObjectId User)
    (d : ObjectId * ChatMessage) : (ObjectId * ChatMessage) * list User :=
  (d, option_list (us !! userId d.2)).

(** [$let userMatch = $arrayElemAt: ['$user', 0]] and the three paths read
    from it. *)
Definition sender_snapshot (joined : list User) : Sender.t :=
  match head joined with
  | Some u => Sender.mk (username u) (name u) (profilePicture u)
  | None => Sender.empty
  end.

Definition project_room (d : (ObjectId * ChatMessage) * list User) : RoomItem.t :=
  let m := d.1.2 in
  RoomItem.mk d.1.1 (userId m) (roomId m) (type m) (message m) (date m)
    (sender_snapshot d.2).

Definition project_user (d : ObjectId * ChatMessage) : UserItem.t :=
  let m := d.2 in
  UserItem.mk d.1 (userId m) (roomId m) (type m) (message m) (date m)
    (payload m).

Definition room_match (room : ObjectId) (d : ObjectId * ChatMessage) : Prop :=
  roomId d.2 = room.

Global Instance room_match_dec room d : Decision (room_match room d).
Proof. unfold room_match. apply _. Defined.

Definition getLatestChatMessagesByRoom
    (msgs : gmap ObjectId ChatMessage) (us : gmap ObjectId User)
    (room : ObjectId) (limit skip : nat) : Promise (option (Page RoomItem.t)) :=
  if pipeline_accepted limit then
    let matched := filter (room_match room) (map_to_list msgs) in
    let sorted := sort_date_desc matched in
    let joined := lookup_user us <$> sorted in
    let facet :=
      (group_count joined,
       project_room <$> stage_limit limit (stage_skip skip joined)) in
    let items := (λ td, mkPage td.1 td.2) <$> unwind_total facet in
    Resolved (head items)
  else Rejected limit_must_be_positive.

Section by_user.
(** [Object.values(notificationsTypes)]: the constant lives in the commons
    package, so the list of its values is a parameter. *)
Variable notificationsTypes : list string.

Definition user_match (uid : ObjectId) (d : ObjectId * ChatMessage) : Prop :=
  userId d.2 = uid ∧ read d.2 = None ∧ type d.2 ∈ notificationsTypes.

Global Instance user_match_dec uid d : Decision (user_match uid d).
Proof. unfold user_match. apply _. Defined.

Definition getLatestChatMessagesByUserId
    (msgs : gmap ObjectId ChatMessage)
    (uid : ObjectId) (limit skip : nat) : Promise (option (Page UserItem.t)) :=
  if pipeline_accepted limit then
    let matched := filter (user_match uid) (map_to_list msgs) in
    let sorted := sort_date_desc matched in
    let facet :=
      (group_count sorted,
       project_user <$> stage_limit limit (stage_skip skip sorted)) in
    let items := (λ td, mkPage td.1 td.2) <$> unwind_total facet in
    Resolved (head items)
  else Rejected limit_must_be_positive.
End by_user.

(** [setMessageRead]: the store before the call goes in, the outcome and the
    store after it come out. *)
Definition setMessageRead (now : Z) (messageId : ObjectId)
    (requestingUser : RequestingUser) (msgs : gmap ObjectId ChatMessage) :
    Promise unit * gmap ObjectId ChatMessage :=
  match msgs !! messageId with
  | None => (Rejected NotFoundError, msgs)
  | Some m =>
      if negb (truthy (ru_admin requestingUser))
         && bool_decide (userId m ≠ ru_id requestingUser)
      then (Rejected ForbiddenError, msgs)
      else (Resolved (), <[messageId := set_read now m]> msgs)
  end.

(** ** users-controller *)

(** What a controller hands back: [next(new ErrorHandler(status, message))]
    or a response sent with a status and a body. *)
Inductive Response (B : Type) :=
  | NextError (status : nat) (msg : string)
  | Sent (status : nat) (body : B).
Arguments NextError {B} status msg.
Arguments Sent {B} status body.

Definition status_of {B : Type} (r : Response B) : nat :=
  match r with
  | NextError s _ => s
  | Sent s _ => s
  end.

(** [err.message]. *)
Definition error_message (e : Thrown) : string :=
  match e with
  | ReferenceError msg => msg
  | TypeError msg => msg
  | ServiceError msg => msg
  end.

(** *** getLeaderboard *)

Module LeaderItem.
(** [.select({ username: 1, amountWon: 1 })]. *)
Record t := mk {
  _id : ObjectId;
  username : option string;
  amountWon : Z
}.
End LeaderItem.

Record LeaderboardBody := mkLeaderboardBody {
  lb_total : nat;
  lb_users : list LeaderItem.t;
  lb_limit : nat;
  lb_skip : nat
}.

(** [{ username: { $exists: true } }]. *)
Definition has_username (d : ObjectId * User) : Prop :=
  is_Some (username d.2).

Global Instance has_username_dec d : Decision (has_username d).
Proof. unfold has_username. apply _. Defined.

(** [.sort({ amountWon: -1 })]. *)
Definition amountWon_desc (a b : ObjectId * User) : Prop :=
  (amountWon a.2 >= amountWon b.2)%Z.

Global Instance amountWon_desc_dec a b : Decision (amountWon_desc a b).
Proof. unfold amountWon_desc. apply _. Defined.

(** A [find] cursor's limit: [0] asks for no limit. *)
Definition cursor_limit {A : Type} (n : nat) (docs : list A) : list A :=
  match n with
  | O => docs
  | S _ => take n docs
  end.

Definition select_leader (d : ObjectId * User) : LeaderItem.t :=
  LeaderItem.mk d.1 (username d.2) (amountWon d.2).

(** [limit] and [skip] are [+req.params.limit] and [+req.params.skip].  The
    cursor sorts, skips, then limits, whatever the order of the calls that
    build it.  [User.countDocuments()] is called with no filter. *)
Definition getLeaderboard (limit skip : nat) (us : gmap ObjectId User) :
    Response LeaderboardBody :=
  let found := filter has_username (map_to_list us) in
  let sorted := merge_sort amountWon_desc found in
  let users := select_leader <$> cursor_limit limit (drop skip sorted) in
  let total := size us in
  Sent 200 (mkLeaderboardBody total users limit skip).

(** *** bindWalletAddress *)

(** What a name in scope is bound to: a user document (or [null]), or
    something that is not a document. *)
Inductive Binding :=
  | DocBinding (d : option (ObjectId * User))
  | Opaque.

(** A scope chain, innermost binding first. *)
Abbreviation Scope := (list (string * Binding)).

Fixpoint resolve (x : string) (sc : Scope) : option Binding :=
  match sc with
  | [] => None
  | (y, b) :: sc' => if bool_decide (x = y) then Some b else resolve x sc'
  end.

(** The names the module declares at its top level, and the ones the
    CommonJS wrapper provides. *)
Definition module_scope : Scope :=
  (λ n, (n, Opaque)) <$>
  ["dotenv"; "validationResult"; "Erc20"; "Wallet"; "User"; "authService";
   "userService"; "mailService"; "tradeService"; "ErrorHandler";
   "toPrettyBigDecimal"; "WFAIR"; "login"; "verfiySms"; "bindWalletAddress";
   "saveAdditionalInformation"; "saveAcceptConditions";
   "rewardRefUserIfNotConfirmed"; "getLeaderboard"; "getUserInfo";
   "getRefList"; "getOpenBetsList"; "getTransactions"; "getAMMHistory";
   "confirmEmail"; "resendConfirmEmail"; "updateUser";
   "exports"; "require"; "module"; "__filename"; "__dirname"].

(** The body of [bindWalletAddress]: its parameters and [walletAddress]. *)
Definition function_scope : Scope :=
  [("walletAddress", Opaque); ("req", Opaque); ("res", Opaque);
   ("next", Opaque)] ++ module_scope.

(** The [try] block once [walletUser] is declared. *)
Definition try_scope (walletUser : option (ObjectId * User)) : Scope :=
  ("walletUser", DocBinding walletUser) :: function_scope.

(** The block of [if (!walletUser)], where [let user] is declared. *)
Definition if_block_scope (walletUser : option (ObjectId * User))
    (user : option (ObjectId * User)) : Scope :=
  ("user", DocBinding user) :: try_scope walletUser.

(** Evaluating [x.id] in a scope. *)
Definition eval_id (x : string) (sc : Scope) : Outcome (option ObjectId) :=
  match resolve x sc with
  | None => Threw (ReferenceError (x +:+ " is not defined"))
  | Some (DocBinding (Some d)) => Returned (Some d.1)
  | Some (DocBinding None) =>
      Threw (TypeError "Cannot read properties of null (reading 'id')")
  | Some Opaque => Returned None
  end.

Record BindBody := mkBindBody {
  bb_userId : option ObjectId;
  bb_walletAddress : string
}.

Record BindRequest := mkBindRequest {
  body_walletAddress : option string;
  bind_user : RequestingUser
}.

(** [!walletAddress]: absent and the empty string are falsy. *)
Definition wallet_present (w : option string) : option string :=
  match w with
  | None => None
  | Some "" => None
  | Some s => Some s
  end.

Definition wallet_match (w : string) (d : ObjectId * User) : Prop :=
  walletAddress d.2 = Some w.

Global Instance wallet_match_dec w d : Decision (wallet_match w d).
Proof. unfold wallet_match. apply _. Defined.

(** [User.findOne({ walletAddress })]: the first user found with it. *)
Definition findOne_walletAddress (w : string) (us : gmap ObjectId User) :
    option (ObjectId * User) :=
  head (filter (wallet_match w) (map_to_list us)).

Definition set_walletAddress (w : string) (u : User) : User :=
  {| username := username u; name := name u;
     profilePicture := profilePicture u; walletAddress := Some w;
     admin := admin u; amountWon := amountWon u |}.

(** Modelled from the spec: [userService.getUserById] is not among the
    sources; the user component is "simple CRUD" over [User], so this is the
    load of the document with that id, [null] when there is none. *)
Definition getUserById (id : ObjectId) (us : gmap ObjectId User) :
    option (ObjectId * User) :=
  (λ u, (id, u)) <$> us !! id.

(** Modelled from the spec: [userService.saveUser] is not among the sources;
    like [saveChatMessage] it persists the in-memory document back to the
    store and hands it back. *)
Definition saveUser (d : ObjectId * User) (us : gmap ObjectId User) :
    (ObjectId * User) * gmap ObjectId User :=
  (d, <[d.1 := d.2]> us).

(** [res.status(201).json({ userId: user.id, walletAddress })]: the argument
    is evaluated in the scope of the [try] block before anything is sent, and
    what it throws goes to the [catch] around it. *)
Definition bind_respond (w : string) (sc : Scope) : Response BindBody :=
  match eval_id "user" sc with
  | Returned uid => Sent 201 (mkBindBody uid w)
  | Threw err => NextError 422 (error_message err)
  end.

(** The response and the users collection after the call.  When the
    requesting user is not stored, [getUserById] gives [null] and the
    assignment to [user.walletAddress] throws a [TypeError] (V8's wording
    below), caught like the rest. *)
Definition bindWalletAddress (req : BindRequest) (us : gmap ObjectId User) :
    Response BindBody * gmap ObjectId User :=
  match wallet_present (body_walletAddress req) with
  | None => (NextError 422 "WalletAddress expected, but was missing", us)
  | Some w =>
      let walletUser := findOne_walletAddress w us in
      match walletUser with
      | Some wu =>
          if bool_decide (wu.1 ≠ ru_id (bind_user req))
          then (NextError 409 "This wallet is already bound to another user", us)
          else (bind_respond w (try_scope walletUser), us)
      | None =>
          match getUserById (ru_id (bind_user req)) us with
          | None =>
              (NextError 422
                 (error_message
                    (TypeError
                       "Cannot set properties of null (setting 'walletAddress')")),
               us)
          | Some user =>
              let user' := (user.1, set_walletAddress w user.2) in
              let '(_, us') := saveUser user' us in
              (bind_respond w (try_scope walletUser), us')
          end
      end
  end.

(** *** updateUser *)

Record UpdateRequest (Body : Type) := mkUpdateRequest {
  params_userId : ObjectId;
  update_body : Body;
  update_user : RequestingUser
}.
Arguments mkUpdateRequest {Body} _ _ _.
Arguments params_userId {Body} _.
Arguments update_body {Body} _.
Arguments update_user {Body} _.

Section updateUser.
(** [userService.updateUser] is outside the sources: any function of the
    target id, the body and the store that returns or throws. *)
Context {Body : Type}.
Variable userService_updateUser :
  ObjectId → Body → gmap ObjectId User → Outcome unit * gmap ObjectId User.

Definition updateUser (req : UpdateRequest Body) (us : gmap ObjectId User) :
    Response string * gmap ObjectId User :=
  if bool_decide (ru_admin (update_user req) = Some false)
     && bool_decide (params_userId req ≠ ru_id (update_user req))
  then (NextError 403 "Action not allowed", us)
  else
    match userService_updateUser (params_userId req) (update_body req) us with
    | (Returned _, us') => (Sent 200 "OK", us')
    | (Threw err, us') => (NextError 422 (error_message err), us')
    end.
End updateUser.

(** ** users-controller: the account paths *)

Module Account.
(** A user document with the paths the account controllers read and write,
    next to the ones of [User]. *)
Record t := mk {
  profile : User;
  phone : option string;
  email : option string;
  confirmed : option bool;
  emailConfirmed : option bool;
  emailCode : option string;
  ref : option string
}.

Definition set_emailConfirmed (a : t) : t :=
  mk (profile a) (phone a) (email a) (confirmed a) (Some true)
     (emailCode a) (ref a).

Definition set_confirmed (a : t) : t :=
  mk (profile a) (phone a) (email a) (Some true) (emailConfirmed a)
     (emailCode a) (ref a).

(** Modelled from the spec: [userService.getUserById] is not among the
    sources; as for [User], the load of the document with that id, [null]
    when there is none. *)
Definition getUserById (id : ObjectId) (accounts : gmap ObjectId t) :
    option (ObjectId * t) :=
  (λ a, (id, a)) <$> accounts !! id.

(** Modelled from the spec: [userService.saveUser] and the document's own
    [save] are not among the sources; they persist the in-memory document
    back to the store, under its [_id]. *)
Definition saveUser (d : ObjectId * t) (accounts : gmap ObjectId t) :
    (ObjectId * t) * gmap ObjectId t :=
  (d, <[d.1 := d.2]> accounts).
End Account.

(** *** confirmEmail *)

Record ConfirmRequest := mkConfirmRequest {
  confirm_errors : list string;
  query_code : option string;
  query_userId : ObjectId
}.

(** [ValidationErrors] is the body of the 400 of the validation path; on
    that path [next] is called with the response object once the 400 is
    sent. *)
Inductive ConfirmBody :=
  | ValidationErrors (errors : list string)
  | StatusOK.

(** [confirmEmail] has no [try]: what is thrown while it runs is the
    outcome.  [confirm_errors] is what [validationResult(req)] holds. *)
Definition confirmEmail (req : ConfirmRequest)
    (accounts : gmap ObjectId Account.t) :
    Outcome (Response ConfirmBody) * gmap ObjectId Account.t :=
  match confirm_errors req with
  | _ :: _ =>
      (Returned (Sent 400 (ValidationErrors (confirm_errors req))), accounts)
  | [] =>
      match Account.getUserById (query_userId req) accounts with
      | None =>
          (Threw
             (TypeError
                "Cannot read properties of null (reading 'emailConfirmed')"),
           accounts)
      | Some user =>
          if truthy (Account.emailConfirmed user.2)
          then (Returned
                  (NextError 403 "The email has been already confirmed"),
                accounts)
          else if bool_decide (Account.emailCode user.2 = query_code req)
          then
            let user' := (user.1, Account.set_emailConfirmed user.2) in
            let '(_, accounts') := Account.saveUser user' accounts in
            (Returned (Sent 200 StatusOK), accounts')
          else (Returned (NextError 422 "The email code is invalid"),
                accounts)
      end
  end.

(** *** rewardRefUserIfNotConfirmed and saveAcceptConditions *)

Record AcceptRequest := mkAcceptRequest {
  accept_errors : list string;
  accept_user : RequestingUser
}.

Record AcceptBody := mkAcceptBody {
  ab_confirmed : option bool
}.

Section rewards.
(** [userService.rewardRefUser] and [userService.createUser] are outside the
    sources: any functions of their argument and of the state of everything
    the backend talks to (the users collection and the rest, [W]) that
    return or throw.  [createUser] is handed the user object and may have
    written to its paths when it returns; the [_id] of a document does not
    change. *)
Context {W : Type}.
Variable rewardRefUser :
  option string → gmap ObjectId Account.t * W →
  Outcome unit * (gmap ObjectId Account.t * W).
Variable createUser :
  ObjectId → Account.t → gmap ObjectId Account.t * W →
  Outcome Account.t * (gmap ObjectId Account.t * W).

(** The value returned is [user.confirmed], read after the [if]; the user
    object as the call leaves it comes back with it. *)
Definition rewardRefUserIfNotConfirmed (user : ObjectId * Account.t)
    (st : gmap ObjectId Account.t * W) :
    Outcome (option bool * (ObjectId * Account.t))
    * (gmap ObjectId Account.t * W) :=
  if negb (truthy (Account.confirmed user.2)) then
    match rewardRefUser (Account.ref user.2) st with
    | (Threw e, st1) => (Threw e, st1)
    | (Returned _, st1) =>
        match createUser user.1 user.2 st1 with
        | (Threw e, st2) => (Threw e, st2)
        | (Returned a, st2) =>
            let user' := (user.1, Account.set_confirmed a) in
            (Returned (Account.confirmed user'.2, user'), st2)
        end
    end
  else (Returned (Account.confirmed user.2, user), st).

Definition saveAcceptConditions (req : AcceptRequest)
    (st : gmap ObjectId Account.t * W) :
    Response AcceptBody * (gmap ObjectId Account.t * W) :=
  match accept_errors req with
  | _ :: _ => (NextError 422 "All conditions need to be accepted", st)
  | [] =>
      match Account.getUserById (ru_id (accept_user req)) st.1 with
      | None =>
          (NextError 422
             (error_message
                (TypeError
                   "Cannot read properties of null (reading 'confirmed')")),
           st)
      | Some user =>
          match rewardRefUserIfNotConfirmed user st with
          | (Threw e, st1) => (NextError 422 (error_message e), st1)
          | (Returned (userConfirmedChanged, user1), st1) =>
              let '(user2, st2) :=
                if truthy userConfirmedChanged
                then let '(saved, accounts') := Account.saveUser user1 st1.1 in
                     (saved, (accounts', st1.2))
                else (user1, st1) in
              (Sent 201 (mkAcceptBody (Account.confirmed user2.2)), st2)
          end
      end
  end.
End rewards.

(** *** saveAdditionalInformation *)

(** A reply whose error message may be [undefined]. *)
Inductive Reply (B : Type) :=
  | ReplyError (status : nat) (msg : option string)
  | ReplySent (status : nat) (body : B).
Arguments ReplyError {B} status msg.
Arguments ReplySent {B} status body.

(** [info_errors] is [None] when [validationResult(req)] is empty, and
    otherwise holds what [errors[0]] evaluates to. *)
Record InfoRequest := mkInfoRequest {
  info_errors : option (option string);
  body_email : option string;
  body_name : option string;
  body_username : option string;
  info_user : RequestingUser
}.

Record InfoBody := mkInfoBody {
  ib_userId : ObjectId;
  ib_phone : option string;
  ib_name : option string;
  ib_email : option string
}.

(** Truthiness of an optional string: absent and the empty string are
    falsy. *)
Definition truthy_string (s : option string) : option string :=
  match s with
  | None => None
  | Some "" => None
  | Some s => Some s
  end.

(** [s.replace(' ', '')]: a string pattern replaces its first occurrence
    only. *)
Fixpoint replace_first_space (s : string) : string :=
  match s with
  | "" => ""
  | String c s' =>
      if Ascii.eqb c Ascii.Space then s'
      else String c (replace_first_space s')
  end.

Definition username_match (n : string) (d : ObjectId * Account.t) : Prop :=
  username (Account.profile d.2) = Some n.

Global Instance username_match_dec n d : Decision (username_match n d).
Proof. unfold username_match. apply _. Defined.

Definition email_match (e : string) (d : ObjectId * Account.t) : Prop :=
  Account.email d.2 = Some e.

Global Instance email_match_dec e d : Decision (email_match e d).
Proof. unfold email_match. apply _. Defined.

(** [User.findOne({ username })] and [User.findOne({ email })]. *)
Definition findOne_username (n : string) (accounts : gmap ObjectId Account.t) :
    option (ObjectId * Account.t) :=
  head (filter (username_match n) (map_to_list accounts)).

Definition findOne_email (e : string) (accounts : gmap ObjectId Account.t) :
    option (ObjectId * Account.t) :=
  head (filter (email_match e) (map_to_list accounts)).

(** [user.username = ...; user.name = name]. *)
Definition set_username_name (n : string) (nm : option string)
    (a : Account.t) : Account.t :=
  let p := Account.profile a in
  Account.mk
    (mkUser (Some n) nm (profilePicture p) (walletAddress p) (admin p)
       (amountWon p))
    (Account.phone a) (Account.email a) (Account.confirmed a)
    (Account.emailConfirmed a) (Account.emailCode a) (Account.ref a).

Definition set_email (e : string) (a : Account.t) : Account.t :=
  Account.mk (Account.profile a) (Account.phone a) (Some e)
    (Account.confirmed a) (Account.emailConfirmed a) (Account.emailCode a)
    (Account.ref a).

(** The test both blocks make on what [findOne] found, and the assignment
    that follows it, on a user object that may be [null]; [taken] is the
    message of the 409 and [path] the first path assigned. *)
Definition claim_path (found user : option (ObjectId * Account.t))
    (taken path : string) (assign : Account.t → Account.t) :
    Reply InfoBody + (ObjectId * Account.t) :=
  match found, user with
  | Some _, None =>
      inl (ReplyError 422
             (Some "Cannot read properties of null (reading '_id')"))
  | Some f, Some u =>
      if bool_decide (f.1 ≠ u.1) then inl (ReplyError 409 (Some taken))
      else inr (u.1, assign u.2)
  | None, None =>
      inl (ReplyError 422
             (Some ("Cannot set properties of null (setting '"
                    +:+ path +:+ "')")))
  | None, Some u => inr (u.1, assign u.2)
  end.

Section saveAdditionalInformation.
(** The services are outside the sources, as for [saveAcceptConditions];
    [mailService.sendConfirmMail] is handed the user object too. *)
Context {W : Type}.
Variable rewardRefUser :
  option string → gmap ObjectId Account.t * W →
  Outcome unit * (gmap ObjectId Account.t * W).
Variable createUser :
  ObjectId → Account.t → gmap ObjectId Account.t * W →
  Outcome Account.t * (gmap ObjectId Account.t * W).
Variable sendConfirmMail :
  ObjectId → Account.t → gmap ObjectId Account.t * W →
  Outcome Account.t * (gmap ObjectId Account.t * W).

(** [user = await userService.saveUser(user)] and the 201.  Saving [null]
    throws in the service. *)
Definition info_save (user : option (ObjectId * Account.t))
    (st : gmap ObjectId Account.t * W) :
    Reply InfoBody * (gmap ObjectId Account.t * W) :=
  match user with
  | None =>
      (ReplyError 422
         (Some "Cannot read properties of null (reading 'save')"), st)
  | Some u =>
      let '(saved, accounts') := Account.saveUser u st.1 in
      (ReplySent 201
         (mkInfoBody saved.1 (Account.phone saved.2)
            (username (Account.profile saved.2)) (Account.email saved.2)),
       (accounts', st.2))
  end.

(** The block of [if (email)]. *)
Definition info_email (e : option string)
    (user : option (ObjectId * Account.t))
    (st : gmap ObjectId Account.t * W) :
    Reply InfoBody * (gmap ObjectId Account.t * W) :=
  match truthy_string e with
  | None => info_save user st
  | Some raw =>
      match claim_path (findOne_email raw st.1) user
              "Email address is already used" "email"
              (set_email (replace_first_space raw)) with
      | inl reply => (reply, st)
      | inr u =>
          match rewardRefUserIfNotConfirmed rewardRefUser createUser u st with
          | (Threw err, st1) => (ReplyError 422 (Some (error_message err)), st1)
          | (Returned (_, u1), st1) =>
              match sendConfirmMail u1.1 u1.2 st1 with
              | (Threw err, st2) =>
                  (ReplyError 422 (Some (error_message err)), st2)
              | (Returned a2, st2) => info_save (Some (u1.1, a2)) st2
              end
          end
      end
  end.

Definition saveAdditionalInformation (req : InfoRequest)
    (st : gmap ObjectId Account.t * W) :
    Reply InfoBody * (gmap ObjectId Account.t * W) :=
  match info_errors req with
  | Some first => (ReplyError 422 first, st)
  | None =>
      let user := Account.getUserById (ru_id (info_user req)) st.1 in
      match truthy_string (body_username req) with
      | None => info_email (body_email req) user st
      | Some raw =>
          match claim_path (findOne_username raw st.1) user
                  "Username is already used" "username"
                  (set_username_name (replace_first_space raw)
                     (body_name req)) with
          | inl reply => (reply, st)
          | inr u => info_email (body_email req) (Some u) st
          end
      end
  end.
End saveAdditionalInformation.

(** * Vocabulary of the properties and sample stores *)

Definition msg_a : ChatMessage :=
  mkChatMessage "r1" "u1" "Notification/EVENT_START" "hi" None 10 None.
Definition msg_b : ChatMessage :=
  mkChatMessage "r1" "u2" "message" "yo" (Some "{}") 30 None.
Definition msg_c : ChatMessage :=
  mkChatMessage "r1" "u1" "Notification/EVENT_END" "hey" None 20 (Some 25%Z).
Definition msg_d : ChatMessage :=
  mkChatMessage "r2" "u9" "message" "who" None 40 None.

Definition sample_msgs : gmap ObjectId ChatMessage :=
  <["a" := msg_a]> (<["b" := msg_b]> (<["c" := msg_c]> (<["d" := msg_d]> ∅))).

Definition alice_doc : User :=
  mkUser (Some "alice") (Some "Alice") None (Some "0xA1") None 50.
Definition bob_doc : User :=
  mkUser (Some "bob") None (Some "bob.png") None (Some false) 70.
Definition ghost_doc : User :=
  mkUser None None None None (Some true) 0.

Definition sample_users : gmap ObjectId User :=
  <["u1" := alice_doc]> (<["u2" := bob_doc]> (<["u3" := ghost_doc]> ∅)).

Definition alice : RequestingUser := mkRequestingUser "u1" None.
Definition bob : RequestingUser := mkRequestingUser "u2" (Some false).
Definition root : RequestingUser := mkRequestingUser "u3" (Some true).

(** The read marker of the message stored under an id, if any. *)
Definition read_of (msgs : gmap ObjectId ChatMessage) (id : ObjectId) :
    option Z :=
  msgs !! id ≫= read.

(** The rule of the spec: an admin, or the sender of the message. *)
Definition may_mark_read (u : RequestingUser) (m : ChatMessage) : Prop :=
  ru_admin u = Some true ∨ userId m = ru_id u.

Global Instance date_desc_trans : Transitive date_desc.
Proof. unfold date_desc. intros x y z. lia. Qed.

Global Instance date_desc_total : Total date_desc.
Proof. unfold date_desc. intros x y. lia. Qed.

(** The number of stored messages of a room, counted on the store. *)
Definition room_count (msgs : gmap ObjectId ChatMessage) (room : ObjectId) :
    nat :=
  size (filter (room_match room) msgs).

(** The messages of a room in the page window, before the join and the
    projection. *)
Definition room_window (msgs : gmap ObjectId ChatMessage) (room : ObjectId)
    (limit skip : nat) : list (ObjectId * ChatMessage) :=
  stage_limit limit
    (stage_skip skip
       (sort_date_desc (filter (room_match room) (map_to_list msgs)))).

(** What C2 asks of an outcome: a page comes back, its total is the count
    and its length follows from the window. *)
Definition page_length_law {D : Type} (r : Promise (option (Page D)))
    (count limit skip : nat) : Prop :=
  ∃ page, r = Resolved (Some page)
    ∧ total page = count
    ∧ length (data page)
      = if decide (skip < count) then limit `min` (count - skip) else 0.

(** The total and the number of items of the page an outcome carries. *)
Definition page_shape {D : Type} (r : Promise (option (Page D))) :
    option (nat * nat) :=
  match r with
  | Resolved (Some p) => Some (total p, length (data p))
  | _ => None
  end.

(** The example of the spec: room [R1] with 150 messages. *)
Definition room_of_150 : gmap ObjectId ChatMessage :=
  list_to_map
    ((λ i, (pretty i,
            mkChatMessage "R1" "u1" "message" "m" None (Z.of_nat i) None))
       <$> seq 0 150).

(** A whitelist of notification types for the examples. *)
Definition sample_types : list string :=
  ["Notification/EVENT_START"; "Notification/EVENT_END"].

(** The sender snapshot the room query attaches: the three profile fields of
    the user stored under the message's [userId] now, or nothing. *)
Definition snapshot_of (us : gmap ObjectId User) (sender : ObjectId) :
    Sender.t :=
  match us !! sender with
  | Some u => Sender.mk (username u) (name u) (profilePicture u)
  | None => Sender.empty
  end.

Definition room_item_date_desc (a b : RoomItem.t) : Prop :=
  (RoomItem.date a >= RoomItem.date b)%Z.

Definition user_item_date_desc (a b : UserItem.t) : Prop :=
  (UserItem.date a >= UserItem.date b)%Z.

Global Instance amountWon_desc_trans : Transitive amountWon_desc.
Proof. unfold amountWon_desc. intros x y z. lia. Qed.

Global Instance amountWon_desc_total : Total amountWon_desc.
Proof. unfold amountWon_desc. intros x y. lia. Qed.

Definition leader_amount_desc (a b : LeaderItem.t) : Prop :=
  (LeaderItem.amountWon a >= LeaderItem.amountWon b)%Z.

(** The number of stored users the leaderboard's filter keeps. *)
Definition leaderboard_matching (us : gmap ObjectId User) : nat :=
  size (filter has_username us).

Definition body_of {B : Type} (r : Response B) : option B :=
  match r with
  | Sent _ b => Some b
  | NextError _ _ => None
  end.

(** A user service for the examples: it renames the target, and rejects
    when no user is stored under the id. *)
Definition rename_service (id : ObjectId) (new_name : string)
    (us : gmap ObjectId User) : Outcome unit * gmap ObjectId User :=
  match us !! id with
  | None => (Threw (ServiceError "no such user"), us)
  | Some u =>
      (Returned (),
       <[id := mkUser (Some new_name) (name u) (profilePicture u)
                 (walletAddress u) (admin u) (amountWon u)]> us)
  end.

(** The number of stored messages the by-user query matches: the unread
    notifications of a user. *)
Definition user_count (types : list string)
    (msgs : gmap ObjectId ChatMessage) (uid : ObjectId) : nat :=
  size (filter (user_match types uid) msgs).

(** No two stored users hold the same wallet address. *)
Definition wallets_unique (us : gmap ObjectId User) : Prop :=
  ∀ i j u v,
    us !! i = Some u → us !! j = Some v →
    is_Some (walletAddress u) → walletAddress u = walletAddress v → i = j.

(** Sample accounts: carol has accepted nothing yet and was referred by dave;
    dave is confirmed and has confirmed his email. *)
Definition carol_account : Account.t :=
  Account.mk (mkUser (Some "carol") None None None None 0)
    (Some "+491") (Some "carol@example.org") None None (Some "4711")
    (Some "u8").
Definition dave_account : Account.t :=
  Account.mk (mkUser (Some "dave") None None None None 5)
    (Some "+492") (Some "dave@example.org") (Some true) (Some true)
    (Some "0815") None.

Definition sample_accounts : gmap ObjectId Account.t :=
  <["u7" := carol_account]> (<["u8" := dave_account]> ∅).

(** Sample services over a ledger of the tokens minted so far: the referrer
    is paid 50 when there is one, a new user is granted 1000. *)
Definition pay_referrer (r : option string)
    (st : gmap ObjectId Account.t * nat) :
    Outcome unit * (gmap ObjectId Account.t * nat) :=
  match r with
  | Some _ => (Returned (), (st.1, st.2 + 50))
  | None => (Returned (), st)
  end.

Definition grant_new_user (id : ObjectId) (a : Account.t)
    (st : gmap ObjectId Account.t * nat) :
    Outcome Account.t * (gmap ObjectId Account.t * nat) :=
  (Returned a, (st.1, st.2 + 1000)).

(** The state after carol has accepted the conditions under the sample
    services. *)
Definition carol_accepted : gmap ObjectId Account.t * nat :=
  (<["u7" := Account.set_confirmed carol_account]> sample_accounts, 1050).

(** The number of spaces of a string. *)
Fixpoint spaces (s : string) : nat :=
  match s with
  | "" => 0
  | String c s' => (if Ascii.eqb c Ascii.Space then 1 else 0) + spaces s'
  end.

(** A sample mail service: the mail goes out and the user object is left as
    it is. *)
Definition deliver_mail (id : ObjectId) (a : Account.t)
    (st : gmap ObjectId Account.t * nat) :
    Outcome Account.t * (gmap ObjectId Account.t * nat) :=
  (Returned a, st).

(** The stored messages a filter matches have pairwise different dates. *)
Definition dates_distinct (P : ObjectId * ChatMessage → Prop)
    (msgs : gmap ObjectId ChatMessage) : Prop :=
  ∀ i j m n,
    msgs !! i = Some m → msgs !! j = Some n →
    P (i, m) → P (j, n) → date m = date n → i = j.

(** An inbox with two unread notifications of one user. *)
Definition note_1 : ChatMessage :=
  mkChatMessage "r5" "u5" "Notification/EVENT_START" "one" None 100 None.
Definition note_2 : ChatMessage :=
  mkChatMessage "r5" "u5" "Notification/EVENT_END" "two" None 200 None.

Definition inbox_msgs : gmap ObjectId ChatMessage :=
  <["n1" := note_1]> (<["n2" := note_2]> sample_msgs).

Definition carla : RequestingUser := mkRequestingUser "u5" None.

(** * Properties *)

(** ** setMessageRead *)

Lemma forbidden_guard_iff (u : RequestingUser) (m : ChatMessage) :
  negb (truthy (ru_admin u)) && bool_decide (userId m ≠ ru_id u) = true
  ↔ ¬ may_mark_read u m.
Proof.
  unfold may_mark_read.
  rewrite andb_true_iff, negb_true_iff, bool_decide_eq_true.
  destruct (ru_admin u) as [[]|]; simpl; intuition congruence.
Qed.

(** C1: setMessageRead rejects with NotFound when no message has the id;
    rejects with Forbidden, leaving the store (and so an unset read marker)
    as it was, when the requesting user is neither an admin nor the sender;
    and otherwise resolves, with the message stored back carrying the
    current time as its read marker and nothing else changed. *)
Theorem setMessageRead_outcomes
    (now : Z) (messageId : ObjectId) (u : RequestingUser)
    (msgs : gmap ObjectId ChatMessage) :
  (msgs !! messageId = None →
     setMessageRead now messageId u msgs = (Rejected NotFoundError, msgs))
  ∧ (∀ m, msgs !! messageId = Some m → ¬ may_mark_read u m →
     setMessageRead now messageId u msgs = (Rejected ForbiddenError, msgs)
     ∧ (read m = None →
        read_of (setMessageRead now messageId u msgs).2 messageId = None))
  ∧ (∀ m, msgs !! messageId = Some m → may_mark_read u m →
     setMessageRead now messageId u msgs
       = (Resolved (), <[messageId := set_read now m]> msgs)
     ∧ read_of (setMessageRead now messageId u msgs).2 messageId = Some now
     ∧ ∀ other, other ≠ messageId →
         (setMessageRead now messageId u msgs).2 !! other = msgs !! other).
Proof.
  unfold setMessageRead, read_of. split; [|split].
  - by intros ->.
  - intros m Hm Hno. rewrite Hm.
    apply forbidden_guard_iff in Hno. rewrite Hno. simpl.
    split; [done|]. intros Hr. by rewrite Hm.
  - intros m Hm Hyes. rewrite Hm.
    destruct (_ && _) eqn:Hg.
    { apply forbidden_guard_iff in Hg. contradiction. }
    simpl. split; [done|]. split.
    + by rewrite lookup_insert_eq.
    + intros other Hne. by rewrite lookup_insert_ne.
Qed.

Lemma setMessageRead_outcomes_witness :
  setMessageRead 99 "zz" alice sample_msgs
    = (Rejected NotFoundError, sample_msgs)
  ∧ (setMessageRead 99 "a" bob sample_msgs
       = (Rejected ForbiddenError, sample_msgs)
     ∧ (read msg_a = None →
        read_of (setMessageRead 99 "a" bob sample_msgs).2 "a" = None))
  ∧ read_of (setMessageRead 99 "a" alice sample_msgs).2 "a" = Some 99%Z
  ∧ read_of (setMessageRead 99 "b" root sample_msgs).2 "b" = Some 99%Z.
Proof.
  split; [|split; [|split]].
  - apply (setMessageRead_outcomes 99 "zz" alice sample_msgs). reflexivity.
  - destruct (setMessageRead_outcomes 99 "a" bob sample_msgs)
      as (_ & Hforbidden & _).
    apply (Hforbidden msg_a).
    + reflexivity.
    + unfold may_mark_read. simpl. intros [?|?]; discriminate.
  - destruct (setMessageRead_outcomes 99 "a" alice sample_msgs)
      as (_ & _ & Hok).
    apply (Hok msg_a).
    + reflexivity.
    + right. reflexivity.
  - destruct (setMessageRead_outcomes 99 "b" root sample_msgs)
      as (_ & _ & Hok).
    apply (Hok msg_b).
    + reflexivity.
    + left. reflexivity.
Defined.

(** C3 as stated fails: a second successful call moves the read marker to
    its own time. *)
Lemma setMessageRead_second_call_overwrites :
  let first := setMessageRead 100 "a" alice sample_msgs in
  let second := setMessageRead 200 "a" root first.2 in
  first.1 = Resolved ()
  ∧ second.1 = Resolved ()
  ∧ read_of first.2 "a" = Some 100%Z
  ∧ read_of second.2 "a" = Some 200%Z
  ∧ read_of second.2 "a" ≠ read_of first.2 "a".
Proof. vm_compute. repeat split. discriminate. Qed.

(** C3, amended: every call that succeeds writes its own time, whether or
    not the marker was set before; after two successful calls the marker is
    the time of the second, and it is never back to unset. *)
Theorem setMessageRead_last_write_wins
    (now1 now2 : Z) (messageId : ObjectId) (u1 u2 : RequestingUser)
    (msgs msgs1 msgs2 : gmap ObjectId ChatMessage) :
  setMessageRead now1 messageId u1 msgs = (Resolved (), msgs1) →
  setMessageRead now2 messageId u2 msgs1 = (Resolved (), msgs2) →
  read_of msgs1 messageId = Some now1 ∧ read_of msgs2 messageId = Some now2.
Proof.
  assert (Hone : ∀ now u s s',
             setMessageRead now messageId u s = (Resolved (), s') →
             read_of s' messageId = Some now).
  { intros now u s s'. unfold setMessageRead, read_of.
    destruct (s !! messageId) as [m|]; [|done].
    destruct (_ && _); [done|]. intros [= <-].
    by rewrite lookup_insert_eq. }
  intros H1 H2. split; eauto.
Qed.

Lemma setMessageRead_last_write_wins_witness :
  read_of (setMessageRead 100 "a" alice sample_msgs).2 "a" = Some 100%Z
  ∧ read_of (setMessageRead 200 "a" root
               (setMessageRead 100 "a" alice sample_msgs).2).2 "a"
    = Some 200%Z.
Proof.
  apply (setMessageRead_last_write_wins 100 200 "a" alice root sample_msgs).
  - vm_compute. reflexivity.
  - vm_compute. reflexivity.
Defined.

(** ** The aggregation queries *)

Section pipeline_facts.
Context {A D : Type}.

(** [$facet], [$unwind] and the outer [$project] leave one item when some
    document reached the facet, and none otherwise. *)
Lemma facet_item (docs : list A) (page : list D) :
  head ((λ td, mkPage td.1 td.2) <$> unwind_total (group_count docs, page))
  = match docs with
    | [] => None
    | _ :: _ => Some (mkPage (length docs) page)
    end.
Proof. by destruct docs. Qed.

Lemma window_length (docs : list A) (limit skip : nat) :
  length (stage_limit limit (stage_skip skip docs))
  = if decide (skip < length docs) then limit `min` (length docs - skip)
    else 0.
Proof.
  unfold stage_limit, stage_skip. rewrite length_take, length_drop.
  case_decide; lia.
Qed.
End pipeline_facts.

(** Matching the scanned collection keeps as many documents as the
    collection holds that match. *)
Lemma scan_filter_length {A : Type} (P : ObjectId * A → Prop)
    `{!∀ d, Decision (P d)} (c : gmap ObjectId A) :
  length (filter P (map_to_list c)) = size (filter P c).
Proof.
  rewrite <- length_map_to_list. apply Permutation_length.
  apply NoDup_Permutation.
  - apply NoDup_filter, NoDup_map_to_list.
  - apply NoDup_map_to_list.
  - intros [k v]. rewrite list_elem_of_filter, !elem_of_map_to_list.
    rewrite map_lookup_filter_Some. tauto.
Qed.

Lemma sort_date_desc_Permutation (docs : list (ObjectId * ChatMessage)) :
  sort_date_desc docs ≡ₚ docs.
Proof. apply merge_sort_Permutation. Qed.

Lemma sort_date_desc_length (docs : list (ObjectId * ChatMessage)) :
  length (sort_date_desc docs) = length docs.
Proof. by rewrite sort_date_desc_Permutation. Qed.

Lemma sort_date_desc_sorted (docs : list (ObjectId * ChatMessage)) :
  StronglySorted date_desc (sort_date_desc docs).
Proof. apply StronglySorted_merge_sort; apply _. Qed.

Lemma StronglySorted_window {A : Type} (R : relation A) (l : list A)
    (limit skip : nat) :
  StronglySorted R l → StronglySorted R (stage_limit limit (stage_skip skip l)).
Proof.
  unfold stage_limit, stage_skip. intros Hl.
  rewrite <- (take_drop skip l) in Hl.
  apply StronglySorted_app_1_r in Hl.
  rewrite <- (take_drop limit (drop skip l)) in Hl.
  by apply StronglySorted_app_1_l in Hl.
Qed.

Lemma pipeline_accepted_pos (limit : nat) :
  0 < limit → pipeline_accepted limit = true.
Proof. destruct limit; [lia|done]. Qed.

(** The room query, stage by stage, for a pipeline the server accepts. *)
Lemma getLatestChatMessagesByRoom_resolved
    (msgs : gmap ObjectId ChatMessage) (us : gmap ObjectId User)
    (room : ObjectId) (limit skip : nat) :
  0 < limit →
  getLatestChatMessagesByRoom msgs us room limit skip
  = Resolved
      (if decide (room_count msgs room = 0) then None
       else Some (mkPage (room_count msgs room)
                    (project_room <$>
                       (lookup_user us <$> room_window msgs room limit skip)))).
Proof.
  intros Hpos. unfold getLatestChatMessagesByRoom, room_window, room_count.
  rewrite (pipeline_accepted_pos _ Hpos). cbv zeta. rewrite facet_item.
  rewrite <- scan_filter_length.
  set (matched := filter (room_match room) (map_to_list msgs)).
  pose proof (sort_date_desc_length matched) as Hlen.
  unfold stage_limit, stage_skip.
  destruct (lookup_user us <$> sort_date_desc matched) as [|j js] eqn:Hj.
  - apply fmap_nil_inv in Hj. rewrite Hj in Hlen. simpl in Hlen.
    rewrite <- Hlen. by rewrite decide_True.
  - rewrite <- Hj. rewrite length_fmap, Hlen.
    assert (length matched ≠ 0).
    { rewrite <- Hlen. intros Hz. apply nil_length_inv in Hz.
      rewrite Hz in Hj. done. }
    rewrite decide_False by done. by rewrite !fmap_take, !fmap_drop.
Qed.

(** C2 as stated fails twice: a room without messages gets no page at all
    (the result is undefined, so there is no data whose length is 0), and a
    limit of 0 has the server reject the pipeline. *)
Lemma room_page_length_fails_without_messages_or_limit :
  (room_count sample_msgs "r0" = 0
   ∧ getLatestChatMessagesByRoom sample_msgs sample_users "r0" 100 0
     = Resolved None
   ∧ ¬ page_length_law
         (getLatestChatMessagesByRoom sample_msgs sample_users "r0" 100 0)
         (room_count sample_msgs "r0") 100 0)
  ∧ (room_count sample_msgs "r1" = 3
     ∧ getLatestChatMessagesByRoom sample_msgs sample_users "r1" 0 0
       = Rejected limit_must_be_positive
     ∧ ¬ page_length_law
           (getLatestChatMessagesByRoom sample_msgs sample_users "r1" 0 0)
           (room_count sample_msgs "r1") 0 0).
Proof.
  split.
  - split; [by vm_compute|]. split; [by vm_compute|].
    intros (page & Hpage & _). vm_compute in Hpage. discriminate.
  - split; [by vm_compute|]. split; [by vm_compute|].
    intros (page & Hpage & _). vm_compute in Hpage. discriminate.
Qed.

(** C2, amended: for a room with at least one message and a positive limit,
    the query resolves with a page whose total is the number of stored
    messages of the room, whatever the limit and the skip, and whose data
    has min(limit, total - skip) entries when skip < total and none
    otherwise. *)
Theorem room_page_length
    (msgs : gmap ObjectId ChatMessage) (us : gmap ObjectId User)
    (room : ObjectId) (limit skip : nat) :
  0 < limit →
  room_count msgs room ≠ 0 →
  page_length_law (getLatestChatMessagesByRoom msgs us room limit skip)
    (room_count msgs room) limit skip.
Proof.
  intros Hpos Hsome. rewrite getLatestChatMessagesByRoom_resolved by done.
  rewrite decide_False by done. eexists. split; [done|]. split; [done|].
  simpl. rewrite !length_fmap. unfold room_window. rewrite window_length.
  by rewrite sort_date_desc_length, scan_filter_length.
Qed.

Lemma room_page_length_witness :
  room_count room_of_150 "R1" = 150
  ∧ page_length_law
      (getLatestChatMessagesByRoom room_of_150 sample_users "R1" 100 0)
      (room_count room_of_150 "R1") 100 0
  ∧ page_length_law
      (getLatestChatMessagesByRoom room_of_150 sample_users "R1" 100 100)
      (room_count room_of_150 "R1") 100 100
  ∧ page_length_law
      (getLatestChatMessagesByRoom room_of_150 sample_users "R1" 100 200)
      (room_count room_of_150 "R1") 100 200.
Proof.
  assert (Hcount : room_count room_of_150 "R1" = 150) by (vm_compute; reflexivity).
  split; [exact Hcount|].
  split; [|split].
  - apply (room_page_length room_of_150 sample_users "R1" 100 0); [lia|].
    rewrite Hcount. lia.
  - apply (room_page_length room_of_150 sample_users "R1" 100 100); [lia|].
    rewrite Hcount. lia.
  - apply (room_page_length room_of_150 sample_users "R1" 100 200); [lia|].
    rewrite Hcount. lia.
Defined.

(** The totals and page lengths of that example, computed. *)
Example room_of_150_pages :
  page_shape (getLatestChatMessagesByRoom room_of_150 sample_users "R1" 100 0)
    = Some (150, 100)
  ∧ page_shape
      (getLatestChatMessagesByRoom room_of_150 sample_users "R1" 100 100)
    = Some (150, 50)
  ∧ page_shape
      (getLatestChatMessagesByRoom room_of_150 sample_users "R1" 100 200)
    = Some (150, 0).
Proof. vm_compute. repeat split. Qed.

(** Every document that leaves match, sort, skip and limit is a stored
    document that matches. *)
Lemma window_elem_of {A : Type} (P : ObjectId * A → Prop)
    `{!∀ d, Decision (P d)} (sort : list (ObjectId * A) → list (ObjectId * A))
    (c : gmap ObjectId A) (limit skip : nat) (d : ObjectId * A) :
  (∀ l, sort l ≡ₚ l) →
  d ∈ stage_limit limit (stage_skip skip (sort (filter P (map_to_list c)))) →
  c !! d.1 = Some d.2 ∧ P d.
Proof.
  intros Hsort Hd. unfold stage_limit, stage_skip in Hd.
  apply subseteq_take, subseteq_drop in Hd. rewrite Hsort in Hd.
  apply list_elem_of_filter in Hd as [HP Hd]. destruct d as [k v].
  by apply elem_of_map_to_list in Hd.
Qed.

Lemma no_match_filter_nil {A : Type} (P : ObjectId * A → Prop)
    `{!∀ d, Decision (P d)} (c : gmap ObjectId A) :
  (∀ id x, c !! id = Some x → ¬ P (id, x)) →
  filter P (map_to_list c) = [].
Proof.
  intros Hno. destruct (filter P (map_to_list c)) as [|[k v] l] eqn:Hf; [done|].
  assert (Hin : (k, v) ∈ filter P (map_to_list c)) by (rewrite Hf; left).
  apply list_elem_of_filter in Hin as [HP Hin].
  apply elem_of_map_to_list in Hin. by destruct (Hno k v Hin).
Qed.

Lemma sort_date_desc_nil : sort_date_desc [] = [].
Proof. reflexivity. Qed.

Section by_user_facts.
Variable types : list string.

(** The by-user query, stage by stage, for a pipeline the server accepts. *)
Lemma getLatestChatMessagesByUserId_resolved
    (msgs : gmap ObjectId ChatMessage) (uid : ObjectId) (limit skip : nat) :
  0 < limit →
  getLatestChatMessagesByUserId types msgs uid limit skip
  = Resolved
      (match sort_date_desc (filter (user_match types uid) (map_to_list msgs))
       with
       | [] => None
       | d :: ds =>
           Some (mkPage (length (d :: ds))
                   (project_user <$>
                      stage_limit limit (stage_skip skip (d :: ds))))
       end).
Proof.
  intros Hpos. unfold getLatestChatMessagesByUserId.
  rewrite (pipeline_accepted_pos _ Hpos). cbv zeta. rewrite facet_item.
  by destruct (sort_date_desc _).
Qed.

(** C5: every item the by-user query returns is the projection of a stored
    message that belongs to the user asked for, has no read marker and has
    one of the notification types; the item is made of the message's own
    fields and payload (the query never reads the users collection). *)
Theorem user_query_returns_unread_notifications_only
    (msgs : gmap ObjectId ChatMessage) (uid : ObjectId) (limit skip : nat)
    (page : Page UserItem.t) (item : UserItem.t) :
  getLatestChatMessagesByUserId types msgs uid limit skip
    = Resolved (Some page) →
  item ∈ data page →
  ∃ id m,
    msgs !! id = Some m
    ∧ item = UserItem.mk id (userId m) (roomId m) (type m) (message m)
               (date m) (payload m)
    ∧ userId m = uid
    ∧ read m = None
    ∧ type m ∈ types
    ∧ UserItem.userId item = uid
    ∧ UserItem.type item ∈ types.
Proof.
  unfold getLatestChatMessagesByUserId.
  destruct (pipeline_accepted limit); [|done]. cbv zeta. rewrite facet_item.
  intros Hres Hitem.
  destruct (sort_date_desc _) as [|d ds] eqn:Hs; [done|].
  injection Hres as <-. simpl in Hitem. rewrite <- Hs in Hitem.
  apply list_elem_of_fmap in Hitem as ([id m] & -> & Hin).
  apply (window_elem_of _ sort_date_desc) in Hin
    as [Hstored (Huid & Hread & Htype)];
    [|apply sort_date_desc_Permutation].
  exists id, m. simpl in *. by repeat split.
Qed.
End by_user_facts.

Lemma user_query_returns_unread_notifications_only_witness :
  ∃ id m,
    sample_msgs !! id = Some m
    ∧ UserItem.mk "a" "u1" "r1" "Notification/EVENT_START" "hi" 10 None
      = UserItem.mk id (userId m) (roomId m) (type m) (message m)
          (date m) (payload m)
    ∧ userId m = "u1"
    ∧ read m = None
    ∧ type m ∈ sample_types
    ∧ "u1" = "u1"
    ∧ "Notification/EVENT_START" ∈ sample_types.
Proof.
  apply (user_query_returns_unread_notifications_only sample_types
           sample_msgs "u1" 100 0
           (mkPage 1 [UserItem.mk "a" "u1" "r1" "Notification/EVENT_START"
                        "hi" 10 None])).
  - vm_compute. reflexivity.
  - simpl. left.
Defined.

Lemma sender_snapshot_lookup (us : gmap ObjectId User)
    (d : ObjectId * ChatMessage) :
  sender_snapshot (lookup_user us d).2 = snapshot_of us (userId d.2).
Proof.
  unfold sender_snapshot, snapshot_of, lookup_user. simpl.
  by destruct (us !! userId d.2).
Qed.

(** C6: with a positive limit, each message of the room that falls in the
    page window is returned at its place in the page, with the current
    username, name and profilePicture of its sender; when no user is stored
    under its userId the message is returned all the same, with an empty
    snapshot.  The page has as many items as the window has messages. *)
Theorem room_query_left_joins_sender
    (msgs : gmap ObjectId ChatMessage) (us : gmap ObjectId User)
    (room : ObjectId) (limit skip i : nat) (d : ObjectId * ChatMessage) :
  0 < limit →
  room_window msgs room limit skip !! i = Some d →
  ∃ page item,
    getLatestChatMessagesByRoom msgs us room limit skip
      = Resolved (Some page)
    ∧ length (data page) = length (room_window msgs room limit skip)
    ∧ data page !! i = Some item
    ∧ msgs !! d.1 = Some d.2
    ∧ item = RoomItem.mk d.1 (userId d.2) (roomId d.2) (type d.2)
               (message d.2) (date d.2) (RoomItem.user item)
    ∧ (∀ u, us !! userId d.2 = Some u →
         RoomItem.user item
           = Sender.mk (username u) (name u) (profilePicture u))
    ∧ (us !! userId d.2 = None → RoomItem.user item = Sender.empty).
Proof.
  intros Hpos Hd.
  assert (Hin : d ∈ room_window msgs room limit skip)
    by (by eapply list_elem_of_lookup_2).
  apply (window_elem_of _ sort_date_desc) in Hin as [Hstored Hroom];
    [|apply sort_date_desc_Permutation].
  rewrite getLatestChatMessagesByRoom_resolved by done.
  assert (Hcount : room_count msgs room ≠ 0).
  { unfold room_count. intros Hz. apply map_size_empty_inv in Hz.
    assert (Hf : filter (room_match room) msgs !! d.1 = Some d.2)
      by (apply map_lookup_filter_Some; by destruct d).
    by rewrite Hz, lookup_empty in Hf. }
  rewrite decide_False by done.
  eexists _, (project_room (lookup_user us d)). split; [done|]. simpl.
  split; [by rewrite !length_fmap|].
  split; [by rewrite !list_lookup_fmap, Hd|].
  split; [done|].
  pose proof (sender_snapshot_lookup us d) as Hsnap.
  unfold project_room, lookup_user in *. simpl in *. rewrite !Hsnap.
  split; [done|]. unfold snapshot_of.
  split; [by intros u ->|by intros ->].
Qed.

Lemma room_query_left_joins_sender_witness :
  ∃ page item,
    getLatestChatMessagesByRoom sample_msgs sample_users "r2" 100 0
      = Resolved (Some page)
    ∧ length (data page) = length (room_window sample_msgs "r2" 100 0)
    ∧ data page !! 0 = Some item
    ∧ sample_msgs !! "d" = Some msg_d
    ∧ item = RoomItem.mk "d" "u9" "r2" "message" "who" 40 (RoomItem.user item)
    ∧ (∀ u, sample_users !! "u9" = Some u →
         RoomItem.user item
           = Sender.mk (username u) (name u) (profilePicture u))
    ∧ (sample_users !! "u9" = None → RoomItem.user item = Sender.empty).
Proof.
  apply (room_query_left_joins_sender sample_msgs sample_users "r2" 100 0 0
           ("d", msg_d)).
  - lia.
  - vm_compute. reflexivity.
Defined.

(** A message of a sender who is not in the users collection comes back
    with an empty snapshot. *)
Example room_query_absent_sender :
  getLatestChatMessagesByRoom sample_msgs sample_users "r2" 100 0
  = Resolved
      (Some (mkPage 1
               [RoomItem.mk "d" "u9" "r2" "message" "who" 40 Sender.empty])).
Proof. vm_compute. reflexivity. Qed.

(** ** Order of a page *)

(** C7: the page of either chat query is sorted by date descending: every
    item is at least as recent as every item after it.  The page is the
    skip/limit window of one date-descending arrangement of all the matching
    messages, so whatever order that arrangement gives to equal dates is the
    order the page has. *)
Theorem chat_pages_sorted_by_date_desc
    (types : list string) (msgs : gmap ObjectId ChatMessage)
    (us : gmap ObjectId User) (id : ObjectId) (limit skip : nat) :
  (∀ page,
     getLatestChatMessagesByRoom msgs us id limit skip = Resolved (Some page) →
     StronglySorted room_item_date_desc (data page)
     ∧ ∃ arranged,
         arranged ≡ₚ filter (room_match id) (map_to_list msgs)
         ∧ StronglySorted date_desc arranged
         ∧ RoomItem._id <$> data page
           = fst <$> stage_limit limit (stage_skip skip arranged))
  ∧ (∀ page,
     getLatestChatMessagesByUserId types msgs id limit skip
       = Resolved (Some page) →
     StronglySorted user_item_date_desc (data page)
     ∧ ∃ arranged,
         arranged ≡ₚ filter (user_match types id) (map_to_list msgs)
         ∧ StronglySorted date_desc arranged
         ∧ UserItem._id <$> data page
           = fst <$> stage_limit limit (stage_skip skip arranged)).
Proof.
  split; intros page.
  - unfold getLatestChatMessagesByRoom.
    destruct (pipeline_accepted limit); [|done]. cbv zeta.
    rewrite facet_item. destruct (lookup_user us <$> _) eqn:Hj; [done|].
    intros [= <-]. simpl. rewrite <- Hj. split.
    + apply (StronglySorted_fmap _ (λ a b, date_desc a.1 b.1)); [done|].
      apply StronglySorted_window.
      apply (StronglySorted_fmap _ date_desc); [done|].
      apply sort_date_desc_sorted.
    + eexists. split; [apply sort_date_desc_Permutation|].
      split; [apply sort_date_desc_sorted|].
      unfold stage_limit, stage_skip.
      rewrite !fmap_take, !fmap_drop, <- !list_fmap_compose.
      reflexivity.
  - unfold getLatestChatMessagesByUserId.
    destruct (pipeline_accepted limit); [|done]. cbv zeta.
    rewrite facet_item. destruct (sort_date_desc _) eqn:Hs; [done|].
    intros [= <-]. simpl. rewrite <- Hs. split.
    + apply (StronglySorted_fmap _ date_desc); [done|].
      apply StronglySorted_window, sort_date_desc_sorted.
    + eexists. split; [apply sort_date_desc_Permutation|].
      split; [apply sort_date_desc_sorted|].
      rewrite <- list_fmap_compose. reflexivity.
Qed.

Lemma chat_pages_sorted_by_date_desc_witness :
  StronglySorted room_item_date_desc
    [RoomItem.mk "b" "u2" "r1" "message" "yo" 30
       (Sender.mk (Some "bob") None (Some "bob.png"));
     RoomItem.mk "c" "u1" "r1" "Notification/EVENT_END" "hey" 20
       (Sender.mk (Some "alice") (Some "Alice") None)]
  ∧ StronglySorted user_item_date_desc
      [UserItem.mk "a" "u1" "r1" "Notification/EVENT_START" "hi" 10 None].
Proof.
  destruct (chat_pages_sorted_by_date_desc sample_types sample_msgs
              sample_users "r1" 2 0) as [Hroom _].
  destruct (chat_pages_sorted_by_date_desc sample_types sample_msgs
              sample_users "u1" 2 0) as [_ Huser].
  split.
  - apply (Hroom (mkPage 3 _)). vm_compute. reflexivity.
  - apply (Huser (mkPage 1 _)). vm_compute. reflexivity.
Defined.

(** ** No match *)

(** C8 as stated fails at limit 0: the pipeline is refused before anything
    is matched, so a query without a match rejects there and does not
    resolve with undefined. *)
Lemma chat_queries_without_match_reject_at_limit_zero :
  (map_Forall (λ _ m, roomId m ≠ "r0") sample_msgs
   ∧ getLatestChatMessagesByRoom sample_msgs sample_users "r0" 0 0
     = Rejected limit_must_be_positive
   ∧ getLatestChatMessagesByRoom sample_msgs sample_users "r0" 0 0
     ≠ Resolved None)
  ∧ (map_Forall
       (λ _ m, ¬ (userId m = "u2" ∧ read m = None ∧ type m ∈ sample_types))
       sample_msgs
     ∧ getLatestChatMessagesByUserId sample_types sample_msgs "u2" 0 0
       = Rejected limit_must_be_positive
     ∧ getLatestChatMessagesByUserId sample_types sample_msgs "u2" 0 0
       ≠ Resolved None).
Proof.
  split.
  - split; [apply (bool_decide_unpack _); vm_compute; reflexivity|].
    split; [reflexivity|]. vm_compute. discriminate.
  - split; [apply (bool_decide_unpack _); vm_compute; reflexivity|].
    split; [reflexivity|]. vm_compute. discriminate.
Qed.

(** C8, amended: with the default or any other positive limit, a chat query
    whose filter matches no stored message resolves (it does not reject)
    with undefined, not with a page of total 0 and no data. *)
Theorem chat_queries_without_match_resolve_undefined
    (types : list string) (msgs : gmap ObjectId ChatMessage)
    (us : gmap ObjectId User) (id : ObjectId) (limit skip : nat) :
  0 < limit →
  ((∀ k m, msgs !! k = Some m → roomId m ≠ id) →
   getLatestChatMessagesByRoom msgs us id limit skip = Resolved None
   ∧ getLatestChatMessagesByRoom msgs us id limit skip
     ≠ Resolved (Some (mkPage 0 [])))
  ∧ ((∀ k m, msgs !! k = Some m →
        ¬ (userId m = id ∧ read m = None ∧ type m ∈ types)) →
     getLatestChatMessagesByUserId types msgs id limit skip = Resolved None
     ∧ getLatestChatMessagesByUserId types msgs id limit skip
       ≠ Resolved (Some (mkPage 0 []))).
Proof.
  intros Hpos. split; intros Hno.
  - assert (Hres : getLatestChatMessagesByRoom msgs us id limit skip
                   = Resolved None).
    { unfold getLatestChatMessagesByRoom.
      rewrite (pipeline_accepted_pos _ Hpos). cbv zeta.
      rewrite facet_item, no_match_filter_nil; [done|].
      intros k m Hk. by apply Hno in Hk. }
    by rewrite Hres.
  - assert (Hres : getLatestChatMessagesByUserId types msgs id limit skip
                   = Resolved None).
    { rewrite getLatestChatMessagesByUserId_resolved by done.
      rewrite no_match_filter_nil; [done|].
      intros k m Hk. by apply Hno in Hk. }
    by rewrite Hres.
Qed.

Lemma chat_queries_without_match_resolve_undefined_witness :
  (getLatestChatMessagesByRoom sample_msgs sample_users "r0" 100 0
     = Resolved None
   ∧ getLatestChatMessagesByRoom sample_msgs sample_users "r0" 100 0
     ≠ Resolved (Some (mkPage 0 [])))
  ∧ (getLatestChatMessagesByUserId sample_types sample_msgs "u2" 100 0
       = Resolved None
     ∧ getLatestChatMessagesByUserId sample_types sample_msgs "u2" 100 0
       ≠ Resolved (Some (mkPage 0 []))).
Proof.
  destruct (chat_queries_without_match_resolve_undefined sample_types
              sample_msgs sample_users "r0" 100 0) as [Hroom _]; [lia|].
  destruct (chat_queries_without_match_resolve_undefined sample_types
              sample_msgs sample_users "u2" 100 0) as [_ Huser]; [lia|].
  split.
  - apply Hroom.
    apply (bool_decide_unpack
             (map_Forall (λ _ m, roomId m ≠ "r0") sample_msgs)).
    vm_compute. reflexivity.
  - apply Huser.
    apply (bool_decide_unpack
             (map_Forall
                (λ _ m, ¬ (userId m = "u2" ∧ read m = None
                           ∧ type m ∈ sample_types))
                sample_msgs)).
    vm_compute. reflexivity.
Defined.

(** ** getLeaderboard *)

(** The users page is sorted by amountWon descending, for every window. *)
Lemma getLeaderboard_sorted (limit skip : nat) (us : gmap ObjectId User) :
  ∃ body, getLeaderboard limit skip us = Sent 200 body
    ∧ StronglySorted leader_amount_desc (lb_users body).
Proof.
  eexists. split; [reflexivity|]. simpl.
  apply (StronglySorted_fmap _ amountWon_desc); [done|].
  assert (Hs : StronglySorted amountWon_desc
                 (merge_sort amountWon_desc
                    (filter has_username (map_to_list us))))
    by (apply StronglySorted_merge_sort; apply _).
  destruct limit as [|n].
  - simpl. rewrite <- (take_drop skip (merge_sort _ _)) in Hs.
    by apply StronglySorted_app_1_r in Hs.
  - by apply (StronglySorted_window _ _ (S n) skip).
Qed.

(** The total is the size of the whole users collection, for every
    window. *)
Lemma getLeaderboard_total (limit skip : nat) (us : gmap ObjectId User) :
  lb_total <$> body_of (getLeaderboard limit skip us) = Some (size us).
Proof. reflexivity. Qed.

(** C4 at a store where one user has no username: the filter keeps two
    users, both of them are on the page, and the total says three. *)
Theorem getLeaderboard_total_counts_users_without_username :
  leaderboard_matching sample_users = 2
  ∧ getLeaderboard 10 0 sample_users
    = Sent 200
        (mkLeaderboardBody 3
           [LeaderItem.mk "u2" (Some "bob") 70;
            LeaderItem.mk "u1" (Some "alice") 50]
           10 0).
Proof. vm_compute. split; reflexivity. Qed.

(** ** bindWalletAddress *)

(** At the point of the success response [user] is not in scope, whatever
    [walletUser] holds. *)
Lemma user_out_of_scope (walletUser : option (ObjectId * User)) :
  resolve "user" (try_scope walletUser) = None.
Proof. reflexivity. Qed.

(** Inside the block of the [if] it is. *)
Lemma user_in_if_block (walletUser user : option (ObjectId * User)) :
  resolve "user" (if_block_scope walletUser user) = Some (DocBinding user).
Proof. reflexivity. Qed.

Lemma bind_respond_422 (w : string) (walletUser : option (ObjectId * User)) :
  bind_respond w (try_scope walletUser) = NextError 422 "user is not defined".
Proof. reflexivity. Qed.

Lemma findOne_walletAddress_None (w : string) (us : gmap ObjectId User) :
  findOne_walletAddress w us = None →
  ∀ k v, us !! k = Some v → walletAddress v ≠ Some w.
Proof.
  unfold findOne_walletAddress. intros Hnone k v Hk Hw.
  apply head_None in Hnone.
  apply (filter_nil_not_elem_of _ _ (k, v)) in Hnone; [|done].
  apply Hnone. by apply elem_of_map_to_list.
Qed.

(** The cases of [bindWalletAddress], with the response and the
    collection each one leaves. *)
Lemma bindWalletAddress_cases
    (req : BindRequest) (us : gmap ObjectId User) :
  (status_of (bindWalletAddress req us).1 ≠ 201
   ∧ ∀ status body, (bindWalletAddress req us).1 ≠ Sent status body)
  ∧ (wallet_present (body_walletAddress req) = None →
     bindWalletAddress req us
       = (NextError 422 "WalletAddress expected, but was missing", us))
  ∧ (∀ w wu,
       wallet_present (body_walletAddress req) = Some w →
       findOne_walletAddress w us = Some wu →
       wu.1 ≠ ru_id (bind_user req) →
       bindWalletAddress req us
         = (NextError 409 "This wallet is already bound to another user", us))
  ∧ (∀ w,
       wallet_present (body_walletAddress req) = Some w →
       (∀ wu, findOne_walletAddress w us = Some wu →
              wu.1 = ru_id (bind_user req)) →
       status_of (bindWalletAddress req us).1 = 422)
  ∧ (∀ w u,
       wallet_present (body_walletAddress req) = Some w →
       findOne_walletAddress w us = None →
       us !! ru_id (bind_user req) = Some u →
       bindWalletAddress req us
         = (NextError 422 "user is not defined",
            <[ru_id (bind_user req) := set_walletAddress w u]> us)).
Proof.
  unfold bindWalletAddress.
  destruct (wallet_present (body_walletAddress req)) as [w|] eqn:Hw.
  2:{ repeat split; try done. }
  destruct (findOne_walletAddress w us) as [wu|] eqn:Hf.
  - case_bool_decide as Hid.
    + split; [done|]. split; [done|]. split.
      { intros w' wu' [= <-] Hf' _. rewrite Hf in Hf'. by injection Hf' as <-. }
      split.
      { intros w' [= <-] Hsame. destruct Hid. apply Hsame.
        by rewrite Hf. }
      intros w' u [= <-] Hf'. by rewrite Hf in Hf'.
    + rewrite bind_respond_422. split; [done|]. split; [done|]. split.
      { intros w' wu' [= <-] Hf' Hne. rewrite Hf in Hf'.
        injection Hf' as <-. by destruct Hne. }
      split; [done|].
      intros w' u [= <-] Hf'. by rewrite Hf in Hf'.
  - unfold getUserById, saveUser.
    destruct (us !! ru_id (bind_user req)) as [u|] eqn:Hu; simpl.
    + rewrite bind_respond_422. split; [done|]. split; [done|]. split.
      { intros w' wu' [= <-] Hf' _. by rewrite Hf in Hf'. }
      split; [done|].
      by intros w' u' [= <-] _ [= <-].
    + split; [done|]. split; [done|]. split.
      { intros w' wu' [= <-] Hf' _. by rewrite Hf in Hf'. }
      split; [done|]. by intros w' u' [= <-] _ ?.
Qed.

(** C9: bindWalletAddress never sends the 201 response.  It answers 422
    when walletAddress is missing, 409 when the wallet is found on another
    user, and 422 in every other case; where the wallet is found on nobody
    and the requesting user is stored, the collection has changed by the
    time the 422 goes out: the user did not hold that address before and is
    stored with it (walletAddress = the requested address, every other
    field as before) after. *)
Theorem bindWalletAddress_never_succeeds
    (req : BindRequest) (us : gmap ObjectId User) :
  (status_of (bindWalletAddress req us).1 ≠ 201
   ∧ ∀ status body, (bindWalletAddress req us).1 ≠ Sent status body)
  ∧ (wallet_present (body_walletAddress req) = None →
     bindWalletAddress req us
       = (NextError 422 "WalletAddress expected, but was missing", us))
  ∧ (∀ w wu,
       wallet_present (body_walletAddress req) = Some w →
       findOne_walletAddress w us = Some wu →
       wu.1 ≠ ru_id (bind_user req) →
       bindWalletAddress req us
         = (NextError 409 "This wallet is already bound to another user", us))
  ∧ (∀ w,
       wallet_present (body_walletAddress req) = Some w →
       (∀ wu, findOne_walletAddress w us = Some wu →
              wu.1 = ru_id (bind_user req)) →
       status_of (bindWalletAddress req us).1 = 422)
  ∧ (∀ w u,
       wallet_present (body_walletAddress req) = Some w →
       findOne_walletAddress w us = None →
       us !! ru_id (bind_user req) = Some u →
       bindWalletAddress req us
         = (NextError 422 "user is not defined",
            <[ru_id (bind_user req) := set_walletAddress w u]> us)
       ∧ walletAddress u ≠ Some w
       ∧ (bindWalletAddress req us).2 !! ru_id (bind_user req)
         = Some (mkUser (username u) (name u) (profilePicture u) (Some w)
                   (admin u) (amountWon u))
       ∧ (bindWalletAddress req us).2 ≠ us).
Proof.
  destruct (bindWalletAddress_cases req us) as (H1 & H2 & H3 & H4 & H5).
  split; [done|]. split; [done|]. split; [done|]. split; [done|].
  intros w u Hw Hf Hu.
  pose proof (findOne_walletAddress_None w us Hf _ u Hu) as Hnot.
  rewrite (H5 w u Hw Hf Hu). cbn [snd].
  split; [done|]. split; [done|].
  split; [by rewrite lookup_insert_eq|].
  intros Heq.
  assert (Hl : (<[ru_id (bind_user req) := set_walletAddress w u]> us)
                 !! ru_id (bind_user req) = us !! ru_id (bind_user req))
    by (by rewrite Heq).
  rewrite lookup_insert_eq, Hu in Hl. injection Hl as Hl.
  apply Hnot. by rewrite <- Hl.
Qed.

Lemma bindWalletAddress_never_succeeds_witness :
  bindWalletAddress (mkBindRequest None bob) sample_users
    = (NextError 422 "WalletAddress expected, but was missing", sample_users)
  ∧ bindWalletAddress (mkBindRequest (Some "0xA1") bob) sample_users
    = (NextError 409 "This wallet is already bound to another user",
       sample_users)
  ∧ status_of
      (bindWalletAddress (mkBindRequest (Some "0xA1") alice) sample_users).1
    = 422
  ∧ (bindWalletAddress (mkBindRequest (Some "0xB0B") bob) sample_users
     = (NextError 422 "user is not defined",
        <["u2" := set_walletAddress "0xB0B" bob_doc]> sample_users)
     ∧ walletAddress bob_doc ≠ Some "0xB0B"
     ∧ (bindWalletAddress (mkBindRequest (Some "0xB0B") bob) sample_users).2
         !! "u2"
       = Some (mkUser (Some "bob") None (Some "bob.png") (Some "0xB0B")
                 (Some false) 70)
     ∧ (bindWalletAddress (mkBindRequest (Some "0xB0B") bob) sample_users).2
       ≠ sample_users).
Proof.
  split; [|split; [|split]].
  - apply (bindWalletAddress_never_succeeds (mkBindRequest None bob)
             sample_users). reflexivity.
  - destruct (bindWalletAddress_never_succeeds
                (mkBindRequest (Some "0xA1") bob) sample_users)
      as (_ & _ & Hconflict & _).
    apply (Hconflict "0xA1" ("u1", alice_doc)).
    + reflexivity.
    + vm_compute. reflexivity.
    + simpl. discriminate.
  - destruct (bindWalletAddress_never_succeeds
                (mkBindRequest (Some "0xA1") alice) sample_users)
      as (_ & _ & _ & Hrest & _).
    apply (Hrest "0xA1").
    + reflexivity.
    + intros wu Hwu. vm_compute in Hwu. by injection Hwu as <-.
  - destruct (bindWalletAddress_never_succeeds
                (mkBindRequest (Some "0xB0B") bob) sample_users)
      as (_ & _ & _ & _ & Hsaved).
    apply (Hsaved "0xB0B" bob_doc).
    + reflexivity.
    + vm_compute. reflexivity.
    + vm_compute. reflexivity.
Defined.

(** ** updateUser *)

(** C10: updateUser answers 403 exactly when the requester's admin field is
    the Boolean false and the target id is not the requester's id, and then
    the store is untouched; a requester whose admin field is undefined gets
    past the check for any target, and the outcome is the one of the user
    service's update. *)
Theorem updateUser_forbidden_iff {Body : Type}
    (service : ObjectId → Body → gmap ObjectId User →
               Outcome unit * gmap ObjectId User)
    (req : UpdateRequest Body) (us : gmap ObjectId User) :
  (status_of (updateUser service req us).1 = 403
   ↔ ru_admin (update_user req) = Some false
     ∧ params_userId req ≠ ru_id (update_user req))
  ∧ (ru_admin (update_user req) = Some false →
     params_userId req ≠ ru_id (update_user req) →
     updateUser service req us = (NextError 403 "Action not allowed", us))
  ∧ (ru_admin (update_user req) = None →
     updateUser service req us
     = match service (params_userId req) (update_body req) us with
       | (Returned _, us') => (Sent 200 "OK", us')
       | (Threw err, us') => (NextError 422 (error_message err), us')
       end).
Proof.
  unfold updateUser. split; [|split].
  - destruct (bool_decide _ && bool_decide _) eqn:Hg.
    + apply andb_true_iff in Hg as [Ha Hi].
      apply bool_decide_eq_true in Ha, Hi. by split.
    + split.
      * destruct (service _ _ _) as [[|] ?]; simpl; lia.
      * intros [Ha Hi]. apply andb_false_iff in Hg as [Hg|Hg];
          apply bool_decide_eq_false in Hg; contradiction.
  - intros Ha Hi. by rewrite !bool_decide_eq_true_2.
  - intros Ha. rewrite Ha. by rewrite bool_decide_eq_false_2.
Qed.

Lemma updateUser_forbidden_iff_witness :
  updateUser rename_service (mkUpdateRequest "u1" "mallory" bob) sample_users
    = (NextError 403 "Action not allowed", sample_users)
  ∧ updateUser rename_service (mkUpdateRequest "u2" "mallory" alice)
      sample_users
    = (Sent 200 "OK",
       <["u2" := mkUser (Some "mallory") None (Some "bob.png") None
                   (Some false) 70]> sample_users).
Proof.
  split.
  - destruct (updateUser_forbidden_iff rename_service
                (mkUpdateRequest "u1" "mallory" bob) sample_users)
      as (_ & Hforbidden & _).
    apply Hforbidden.
    + reflexivity.
    + simpl. discriminate.
  - destruct (updateUser_forbidden_iff rename_service
                (mkUpdateRequest "u2" "mallory" alice) sample_users)
      as (_ & _ & Hundefined).
    rewrite Hundefined by reflexivity. vm_compute. reflexivity.
Defined.

(** * Further properties *)

(** ** The chat queries as a paginated listing *)

Lemma scan_filter_Permutation {A : Type} (P : ObjectId * A → Prop)
    `{!∀ d, Decision (P d)} (c : gmap ObjectId A) :
  filter P (map_to_list c) ≡ₚ map_to_list (filter P c).
Proof.
  apply NoDup_Permutation.
  - apply NoDup_filter, NoDup_map_to_list.
  - apply NoDup_map_to_list.
  - intros [k v]. rewrite list_elem_of_filter, !elem_of_map_to_list.
    rewrite map_lookup_filter_Some. tauto.
Qed.

Lemma user_sorted_length (types : list string)
    (msgs : gmap ObjectId ChatMessage) (uid : ObjectId) :
  length (sort_date_desc (filter (user_match types uid) (map_to_list msgs)))
  = user_count types msgs uid.
Proof.
  unfold user_count. by rewrite sort_date_desc_length, scan_filter_length.
Qed.

(** X1: for a user with at least one unread notification and a positive
    limit, the by-user query resolves with a page whose total is the number
    of stored unread notifications of that user, for every limit and skip,
    and whose data has min(limit, total - skip) items when skip < total and
    none otherwise. *)
Theorem user_page_length
    (types : list string) (msgs : gmap ObjectId ChatMessage)
    (uid : ObjectId) (limit skip : nat) :
  0 < limit →
  user_count types msgs uid ≠ 0 →
  page_length_law (getLatestChatMessagesByUserId types msgs uid limit skip)
    (user_count types msgs uid) limit skip.
Proof.
  intros Hpos Hsome.
  rewrite getLatestChatMessagesByUserId_resolved by done.
  pose proof (user_sorted_length types msgs uid) as Hlen.
  destruct (sort_date_desc _) as [|d ds] eqn:Hs.
  - simpl in Hlen. congruence.
  - eexists. split; [done|]. split; [done|].
    cbn [data]. rewrite length_fmap, window_length. by rewrite Hlen.
Qed.

Lemma user_page_length_witness :
  user_count sample_types sample_msgs "u1" = 1
  ∧ page_length_law
      (getLatestChatMessagesByUserId sample_types sample_msgs "u1" 5 0)
      (user_count sample_types sample_msgs "u1") 5 0.
Proof.
  assert (Hcount : user_count sample_types sample_msgs "u1" = 1)
    by (vm_compute; reflexivity).
  split; [exact Hcount|].
  apply (user_page_length sample_types sample_msgs "u1" 5 0); [lia|].
  rewrite Hcount. lia.
Defined.

(** The by-user query with its total read off the store. *)
Lemma getLatestChatMessagesByUserId_page
    (types : list string) (msgs : gmap ObjectId ChatMessage)
    (uid : ObjectId) (limit skip : nat) :
  0 < limit →
  getLatestChatMessagesByUserId types msgs uid limit skip
  = Resolved
      (if decide (user_count types msgs uid = 0) then None
       else Some (mkPage (user_count types msgs uid)
                    (project_user <$>
                       stage_limit limit
                         (stage_skip skip
                            (sort_date_desc
                               (filter (user_match types uid)
                                  (map_to_list msgs))))))).
Proof.
  intros Hpos. rewrite getLatestChatMessagesByUserId_resolved by done.
  pose proof (user_sorted_length types msgs uid) as Hlen.
  destruct (sort_date_desc _) as [|d ds] eqn:Hs.
  - simpl in Hlen. by rewrite decide_True.
  - rewrite decide_False by (rewrite <- Hlen; done). by rewrite Hlen.
Qed.

Lemma accepted_of_resolved_room
    (msgs : gmap ObjectId ChatMessage) (us : gmap ObjectId User)
    (room : ObjectId) (limit skip : nat) (r : option (Page RoomItem.t)) :
  getLatestChatMessagesByRoom msgs us room limit skip = Resolved r →
  0 < limit.
Proof.
  unfold getLatestChatMessagesByRoom. destruct limit; [done|]. lia.
Qed.

Lemma accepted_of_resolved_user
    (types : list string) (msgs : gmap ObjectId ChatMessage)
    (uid : ObjectId) (limit skip : nat) (r : option (Page UserItem.t)) :
  getLatestChatMessagesByUserId types msgs uid limit skip = Resolved r →
  0 < limit.
Proof.
  unfold getLatestChatMessagesByUserId. destruct limit; [done|]. lia.
Qed.

(** X2: a page that comes back is never an empty listing in disguise: its
    total is the number of stored matches and is at least 1, and its data
    holds at most [limit] items and at most [total] items.  This holds for
    both queries. *)
Theorem returned_pages_are_bounded
    (types : list string) (msgs : gmap ObjectId ChatMessage)
    (us : gmap ObjectId User) (id : ObjectId) (limit skip : nat) :
  (∀ page,
     getLatestChatMessagesByRoom msgs us id limit skip = Resolved (Some page) →
     total page = room_count msgs id
     ∧ 1 ≤ total page
     ∧ length (data page) ≤ limit
     ∧ length (data page) ≤ total page)
  ∧ (∀ page,
     getLatestChatMessagesByUserId types msgs id limit skip
       = Resolved (Some page) →
     total page = user_count types msgs id
     ∧ 1 ≤ total page
     ∧ length (data page) ≤ limit
     ∧ length (data page) ≤ total page).
Proof.
  split; intros page Hres.
  - pose proof (accepted_of_resolved_room _ _ _ _ _ _ Hres) as Hpos.
    rewrite getLatestChatMessagesByRoom_resolved in Hres by done.
    case_decide as Hc; [done|]. injection Hres as <-. cbn [total data].
    rewrite !length_fmap. unfold room_window. rewrite window_length.
    rewrite sort_date_desc_length, scan_filter_length.
    fold (room_count msgs id). case_decide; lia.
  - pose proof (accepted_of_resolved_user _ _ _ _ _ _ Hres) as Hpos.
    rewrite getLatestChatMessagesByUserId_page in Hres by done.
    case_decide as Hc; [done|]. injection Hres as <-. cbn [total data].
    rewrite length_fmap, window_length, user_sorted_length.
    case_decide; lia.
Qed.

Lemma returned_pages_are_bounded_witness :
  (3 = room_count sample_msgs "r1" ∧ 1 ≤ 3 ∧ 2 ≤ 2 ∧ 2 ≤ 3)
  ∧ (1 = user_count sample_types sample_msgs "u1" ∧ 1 ≤ 1 ∧ 1 ≤ 2 ∧ 1 ≤ 1).
Proof.
  destruct (returned_pages_are_bounded sample_types sample_msgs sample_users
              "r1" 2 0) as [Hroom _].
  destruct (returned_pages_are_bounded sample_types sample_msgs sample_users
              "u1" 2 0) as [_ Huser].
  split.
  - apply (Hroom
             (mkPage 3
                [RoomItem.mk "b" "u2" "r1" "message" "yo" 30
                   (Sender.mk (Some "bob") None (Some "bob.png"));
                 RoomItem.mk "c" "u1" "r1" "Notification/EVENT_END" "hey" 20
                   (Sender.mk (Some "alice") (Some "Alice") None)])).
    vm_compute. reflexivity.
  - apply (Huser
             (mkPage 1
                [UserItem.mk "a" "u1" "r1" "Notification/EVENT_START" "hi"
                   10 None])).
    vm_compute. reflexivity.
Defined.

(** With pairwise different dates there is one date-descending arrangement
    of the matches only: whatever order a sort by date gives, it is this
    one. *)
Lemma date_desc_arrangement_unique (P : ObjectId * ChatMessage → Prop)
    `{!∀ d, Decision (P d)} (msgs : gmap ObjectId ChatMessage)
    (arranged : list (ObjectId * ChatMessage)) :
  dates_distinct P msgs →
  arranged ≡ₚ filter P (map_to_list msgs) →
  StronglySorted date_desc arranged →
  arranged = sort_date_desc (filter P (map_to_list msgs)).
Proof.
  intros Hdistinct Hperm Hsorted.
  apply (StronglySorted_unique_strong date_desc);
    [|done|apply sort_date_desc_sorted
     |by rewrite Hperm, sort_date_desc_Permutation].
  intros [i m] [j n] Hi Hj Hge Hle.
  rewrite Hperm in Hi. rewrite sort_date_desc_Permutation in Hj.
  apply list_elem_of_filter in Hi as [HPi Hi].
  apply list_elem_of_filter in Hj as [HPj Hj].
  apply elem_of_map_to_list in Hi, Hj.
  assert (i = j) as ->.
  { apply (Hdistinct i j m n); try done.
    unfold date_desc in *. simpl in *. lia. }
  congruence.
Qed.

(** X3: consecutive pages tile the listing when the matching messages have
    pairwise different dates.  Then the order by date leaves nothing open:
    every date-descending arrangement of the matches is the one the pages
    are cut from, in every execution; and the page at [skip] with limit [l1]
    followed by the page at [skip + l1] with limit [l2] is the page at
    [skip] with limit [l1 + l2], so nothing is repeated and nothing is left
    out between two pages.  This holds for both queries. *)
Theorem consecutive_pages_tile
    (types : list string) (msgs : gmap ObjectId ChatMessage)
    (us : gmap ObjectId User) (id : ObjectId) (l1 l2 skip : nat) :
  0 < l1 → 0 < l2 →
  (room_count msgs id ≠ 0 →
   dates_distinct (room_match id) msgs →
   (∀ arranged,
      arranged ≡ₚ filter (room_match id) (map_to_list msgs) →
      StronglySorted date_desc arranged →
      arranged = sort_date_desc (filter (room_match id) (map_to_list msgs)))
   ∧ ∃ p1 p2 p12,
       getLatestChatMessagesByRoom msgs us id l1 skip = Resolved (Some p1)
       ∧ getLatestChatMessagesByRoom msgs us id l2 (skip + l1)
         = Resolved (Some p2)
       ∧ getLatestChatMessagesByRoom msgs us id (l1 + l2) skip
         = Resolved (Some p12)
       ∧ data p1 ++ data p2 = data p12)
  ∧ (user_count types msgs id ≠ 0 →
     dates_distinct (user_match types id) msgs →
     (∀ arranged,
        arranged ≡ₚ filter (user_match types id) (map_to_list msgs) →
        StronglySorted date_desc arranged →
        arranged
        = sort_date_desc (filter (user_match types id) (map_to_list msgs)))
     ∧ ∃ p1 p2 p12,
         getLatestChatMessagesByUserId types msgs id l1 skip
           = Resolved (Some p1)
         ∧ getLatestChatMessagesByUserId types msgs id l2 (skip + l1)
           = Resolved (Some p2)
         ∧ getLatestChatMessagesByUserId types msgs id (l1 + l2) skip
           = Resolved (Some p12)
         ∧ data p1 ++ data p2 = data p12).
Proof.
  intros H1 H2. split; intros Hsome Hdistinct.
  - split.
    { intros arranged. by apply date_desc_arrangement_unique. }
    rewrite !getLatestChatMessagesByRoom_resolved by lia.
    rewrite !decide_False by done.
    eexists _, _, _. repeat split. cbn [data].
    rewrite <- !fmap_app. do 2 f_equal.
    unfold room_window, stage_limit, stage_skip.
    rewrite <- drop_drop. apply take_take_drop.
  - split.
    { intros arranged. by apply date_desc_arrangement_unique. }
    rewrite !getLatestChatMessagesByUserId_page by lia.
    rewrite !decide_False by done.
    eexists _, _, _. repeat split. cbn [data].
    rewrite <- !fmap_app. f_equal.
    unfold stage_limit, stage_skip.
    rewrite <- drop_drop. apply take_take_drop.
Qed.

Lemma sample_dates_distinct (P : ObjectId * ChatMessage → Prop)
    (msgs : gmap ObjectId ChatMessage) :
  map_Forall
    (λ i m, map_Forall
              (λ j n, P (i, m) → P (j, n) → date m = date n → i = j) msgs)
    msgs →
  dates_distinct P msgs.
Proof. intros Hall i j m n Hi Hj. exact (Hall i m Hi j n Hj). Qed.

Lemma consecutive_pages_tile_witness :
  ((∀ arranged,
      arranged ≡ₚ filter (room_match "r1") (map_to_list sample_msgs) →
      StronglySorted date_desc arranged →
      arranged
      = sort_date_desc (filter (room_match "r1") (map_to_list sample_msgs)))
   ∧ ∃ p1 p2 p12,
       getLatestChatMessagesByRoom sample_msgs sample_users "r1" 1 1
         = Resolved (Some p1)
       ∧ getLatestChatMessagesByRoom sample_msgs sample_users "r1" 1 (1 + 1)
         = Resolved (Some p2)
       ∧ getLatestChatMessagesByRoom sample_msgs sample_users "r1" (1 + 1) 1
         = Resolved (Some p12)
       ∧ data p1 ++ data p2 = data p12)
  ∧ ((∀ arranged,
        arranged
        ≡ₚ filter (user_match sample_types "u5") (map_to_list inbox_msgs) →
        StronglySorted date_desc arranged →
        arranged
        = sort_date_desc
            (filter (user_match sample_types "u5") (map_to_list inbox_msgs)))
     ∧ ∃ p1 p2 p12,
         getLatestChatMessagesByUserId sample_types inbox_msgs "u5" 1 0
           = Resolved (Some p1)
         ∧ getLatestChatMessagesByUserId sample_types inbox_msgs "u5" 1 (0 + 1)
           = Resolved (Some p2)
         ∧ getLatestChatMessagesByUserId sample_types inbox_msgs "u5" (1 + 1) 0
           = Resolved (Some p12)
         ∧ data p1 ++ data p2 = data p12).
Proof.
  split.
  - destruct (consecutive_pages_tile sample_types sample_msgs sample_users
                "r1" 1 1 1) as [Hroom _]; [lia|lia|].
    apply Hroom.
    + vm_compute. lia.
    + apply sample_dates_distinct. apply (bool_decide_unpack _).
      vm_compute. reflexivity.
  - destruct (consecutive_pages_tile sample_types inbox_msgs sample_users
                "u5" 1 1 0) as [_ Huser]; [lia|lia|].
    apply Huser.
    + vm_compute. lia.
    + apply sample_dates_distinct. apply (bool_decide_unpack _).
      vm_compute. reflexivity.
Defined.

(** X4: one page that is large enough lists the room.  With no skip and a
    limit of at least the number of messages of a non-empty room, the ids of
    the returned items are, without repetition, exactly the ids of the
    stored messages of that room. *)
Theorem large_page_lists_room
    (msgs : gmap ObjectId ChatMessage) (us : gmap ObjectId User)
    (room : ObjectId) (limit : nat) :
  room_count msgs room ≠ 0 →
  room_count msgs room ≤ limit →
  ∃ page,
    getLatestChatMessagesByRoom msgs us room limit 0 = Resolved (Some page)
    ∧ length (data page) = total page
    ∧ NoDup (RoomItem._id <$> data page)
    ∧ ∀ id, id ∈ RoomItem._id <$> data page
            ↔ ∃ m, msgs !! id = Some m ∧ roomId m = room.
Proof.
  intros Hsome Hle.
  rewrite getLatestChatMessagesByRoom_resolved by lia.
  rewrite decide_False by done. eexists. split; [done|]. cbn [data total].
  set (matched := filter (room_match room) (map_to_list msgs)).
  assert (Hwin : room_window msgs room limit 0 = sort_date_desc matched).
  { unfold room_window, stage_limit, stage_skip. rewrite drop_0.
    apply take_ge. rewrite sort_date_desc_length.
    unfold matched. rewrite scan_filter_length. done. }
  rewrite Hwin.
  assert (Hids : RoomItem._id <$>
                   (project_room <$> (lookup_user us <$> sort_date_desc matched))
                 = (sort_date_desc matched).*1).
  { rewrite <- !list_fmap_compose. reflexivity. }
  rewrite Hids.
  assert (Hperm : (sort_date_desc matched).*1
                  ≡ₚ (map_to_list (filter (room_match room) msgs)).*1).
  { rewrite sort_date_desc_Permutation. unfold matched.
    by rewrite scan_filter_Permutation. }
  split; [|split].
  - rewrite !length_fmap, sort_date_desc_length. unfold matched.
    by rewrite scan_filter_length.
  - rewrite Hperm. apply NoDup_fst_map_to_list.
  - intros id. rewrite Hperm. rewrite list_elem_of_fmap. split.
    + intros ([k m] & -> & Hin). apply elem_of_map_to_list in Hin.
      apply map_lookup_filter_Some in Hin as [Hm Hr]. by exists m.
    + intros (m & Hm & Hr). exists (id, m). split; [done|].
      apply elem_of_map_to_list. by apply map_lookup_filter_Some.
Qed.

Lemma large_page_lists_room_witness :
  ∃ page,
    getLatestChatMessagesByRoom sample_msgs sample_users "r1" 10 0
      = Resolved (Some page)
    ∧ length (data page) = total page
    ∧ NoDup (RoomItem._id <$> data page)
    ∧ ∀ id, id ∈ RoomItem._id <$> data page
            ↔ ∃ m, sample_msgs !! id = Some m ∧ roomId m = "r1".
Proof.
  apply (large_page_lists_room sample_msgs sample_users "r1" 10).
  - vm_compute. lia.
  - vm_compute. lia.
Defined.

(** ** setMessageRead and the queries *)

(** X5: a message that was marked as read is gone from the unread
    notifications: after a successful [setMessageRead], no page of the
    by-user query, for any user, whitelist, limit or skip, holds that
    message. *)
Theorem marked_message_leaves_unread_query
    (types : list string) (now : Z) (messageId : ObjectId)
    (u : RequestingUser) (msgs msgs' : gmap ObjectId ChatMessage)
    (uid : ObjectId) (limit skip : nat) (page : Page UserItem.t)
    (item : UserItem.t) :
  setMessageRead now messageId u msgs = (Resolved (), msgs') →
  getLatestChatMessagesByUserId types msgs' uid limit skip
    = Resolved (Some page) →
  item ∈ data page →
  UserItem._id item ≠ messageId.
Proof.
  intros Hset Hres Hitem.
  assert (Hread : read_of msgs' messageId = Some now).
  { revert Hset. unfold setMessageRead, read_of.
    destruct (msgs !! messageId) as [m|]; [|done].
    destruct (_ && _); [done|]. intros [= <-]. by rewrite lookup_insert_eq. }
  pose proof (accepted_of_resolved_user _ _ _ _ _ _ Hres) as Hpos.
  rewrite getLatestChatMessagesByUserId_page in Hres by done.
  case_decide; [done|]. injection Hres as <-. cbn [data] in Hitem.
  apply list_elem_of_fmap in Hitem as ([id m] & -> & Hin).
  apply (window_elem_of _ sort_date_desc) in Hin
    as [Hstored (_ & Hunread & _)]; [|apply sort_date_desc_Permutation].
  simpl in *. intros ->. unfold read_of in Hread.
  rewrite Hstored in Hread. simpl in Hread. congruence.
Qed.

(** Before the mark the inbox of that user lists both notifications; after
    the mark of the first it lists the second only. *)
Example inbox_before_and_after_mark :
  (UserItem._id <$>
     match getLatestChatMessagesByUserId sample_types inbox_msgs "u5" 5 0 with
     | Resolved (Some p) => data p
     | _ => []
     end) = ["n2"; "n1"]
  ∧ getLatestChatMessagesByUserId sample_types
      (setMessageRead 300 "n1" carla inbox_msgs).2 "u5" 5 0
    = Resolved
        (Some (mkPage 1
                 [UserItem.mk "n2" "u5" "r5" "Notification/EVENT_END" "two"
                    200 None])).
Proof. vm_compute. split; reflexivity. Qed.

Lemma marked_message_leaves_unread_query_witness :
  UserItem._id
    (UserItem.mk "n2" "u5" "r5" "Notification/EVENT_END" "two" 200 None)
  ≠ "n1".
Proof.
  apply (marked_message_leaves_unread_query sample_types 300 "n1" carla
           inbox_msgs (setMessageRead 300 "n1" carla inbox_msgs).2
           "u5" 5 0
           (mkPage 1
              [UserItem.mk "n2" "u5" "r5" "Notification/EVENT_END" "two"
                 200 None])).
  - vm_compute. reflexivity.
  - vm_compute. reflexivity.
  - left.
Defined.

Lemma setMessageRead_resolved_inv
    (now : Z) (messageId : ObjectId) (u : RequestingUser)
    (msgs msgs' : gmap ObjectId ChatMessage) :
  setMessageRead now messageId u msgs = (Resolved (), msgs') →
  ∃ m, msgs !! messageId = Some m
       ∧ msgs' = <[messageId := set_read now m]> msgs.
Proof.
  unfold setMessageRead. destruct (msgs !! messageId) as [m|]; [|done].
  destruct (_ && _); [done|]. intros [= <-]. by exists m.
Qed.

(** X6: what marking a message as read does to the totals.  The total of
    every room stays what it was (the room query has no read filter), and
    the number of unread notifications of a user goes down by one exactly
    when the marked message was one of them, and stays what it was
    otherwise. *)
Theorem marking_read_moves_totals
    (now : Z) (messageId : ObjectId) (u : RequestingUser)
    (msgs msgs' : gmap ObjectId ChatMessage) (m : ChatMessage) :
  setMessageRead now messageId u msgs = (Resolved (), msgs') →
  msgs !! messageId = Some m →
  (∀ room, room_count msgs' room = room_count msgs room)
  ∧ (∀ types uid,
       user_count types msgs' uid
       = if decide (userId m = uid ∧ read m = None ∧ type m ∈ types)
         then user_count types msgs uid - 1
         else user_count types msgs uid).
Proof.
  intros Hset Hm.
  apply setMessageRead_resolved_inv in Hset as (m0 & Hm0 & ->).
  assert (m0 = m) as -> by congruence. split.
  - intros room. unfold room_count. rewrite map_filter_insert.
    case_decide as Hr.
    + apply map_size_insert_Some. exists m.
      by apply map_lookup_filter_Some.
    + rewrite map_filter_delete. apply map_size_delete_None.
      apply map_lookup_filter_None. right. intros m1 Hm1.
      by assert (m1 = m) as -> by congruence.
  - intros types uid. unfold user_count.
    rewrite map_filter_insert_False
      by (unfold user_match; simpl; intros (_ & ? & _); done).
    rewrite map_filter_delete, map_size_delete.
    case_decide as Hmatch.
    + assert (Hf : filter (user_match types uid) msgs !! messageId = Some m)
        by (by apply map_lookup_filter_Some).
      rewrite Hf. lia.
    + assert (Hf : filter (user_match types uid) msgs !! messageId = None).
      { apply map_lookup_filter_None. right. intros m1 Hm1.
        by assert (m1 = m) as -> by congruence. }
      by rewrite Hf.
Qed.

Lemma marking_read_moves_totals_witness :
  (∀ room,
     room_count (setMessageRead 99 "a" alice sample_msgs).2 room
     = room_count sample_msgs room)
  ∧ (∀ types uid,
       user_count types (setMessageRead 99 "a" alice sample_msgs).2 uid
       = if decide (userId msg_a = uid ∧ read msg_a = None
                    ∧ type msg_a ∈ types)
         then user_count types sample_msgs uid - 1
         else user_count types sample_msgs uid).
Proof.
  apply (marking_read_moves_totals 99 "a" alice sample_msgs
           (setMessageRead 99 "a" alice sample_msgs).2 msg_a).
  - vm_compute. reflexivity.
  - reflexivity.
Defined.

(** ** The leaderboard page *)

(** The users the cursor hands over, before the projection. *)
Lemma cursor_window_sublist {A : Type} (l : list A) (limit skip : nat) :
  cursor_limit limit (drop skip l) `sublist_of` l.
Proof.
  destruct limit as [|n]; simpl.
  - apply sublist_drop.
  - etrans; [apply (sublist_take _ (S n))|apply sublist_drop].
Qed.

Lemma leaderboard_sorted_Permutation (us : gmap ObjectId User) :
  merge_sort amountWon_desc (filter has_username (map_to_list us))
  ≡ₚ map_to_list (filter has_username us).
Proof. by rewrite merge_sort_Permutation, scan_filter_Permutation. Qed.

(** X7: who is on a leaderboard page.  For every limit, skip and users
    collection, each entry of the page is a stored user that has a username,
    with that user's id, username and amountWon, and no user is listed
    twice. *)
Theorem leaderboard_lists_named_users_once
    (limit skip : nat) (us : gmap ObjectId User) :
  ∃ body,
    getLeaderboard limit skip us = Sent 200 body
    ∧ NoDup (LeaderItem._id <$> lb_users body)
    ∧ ∀ item, item ∈ lb_users body →
        ∃ u, us !! LeaderItem._id item = Some u
             ∧ is_Some (username u)
             ∧ LeaderItem.username item = username u
             ∧ LeaderItem.amountWon item = amountWon u.
Proof.
  eexists. split; [reflexivity|]. cbn [lb_users].
  set (sorted := merge_sort amountWon_desc
                   (filter has_username (map_to_list us))).
  pose proof (cursor_window_sublist sorted limit skip) as Hsub.
  split.
  - rewrite <- list_fmap_compose.
    change (LeaderItem._id ∘ select_leader) with (@fst ObjectId User).
    assert (Hsubf : (cursor_limit limit (drop skip sorted)).*1
                    `sublist_of` sorted.*1) by (by apply fmap_sublist).
    apply (sublist_NoDup _ (sorted.*1)); [|done]. unfold sorted.
    rewrite leaderboard_sorted_Permutation. apply NoDup_fst_map_to_list.
  - intros item Hitem.
    apply list_elem_of_fmap in Hitem as ([k u] & -> & Hin).
    assert (Hin' : (k, u) ∈ sorted).
    { apply sublist_submseteq, submseteq_Permutation in Hsub
        as (rest & Hperm).
      rewrite Hperm. apply elem_of_app. by left. }
    unfold sorted in Hin'. rewrite leaderboard_sorted_Permutation in Hin'.
    apply elem_of_map_to_list, map_lookup_filter_Some in Hin' as [Hk Hn].
    exists u. by repeat split.
Qed.

(** X8: how long a leaderboard page is, and what its total bounds.  A
    positive limit gives min(limit, matching - skip) entries, where matching
    is the number of stored users with a username; a limit of 0 gives all
    matching users after the skip; and the total is never less than
    matching, hence never less than the page. *)
Theorem leaderboard_page_length
    (limit skip : nat) (us : gmap ObjectId User) :
  ∃ body,
    getLeaderboard limit skip us = Sent 200 body
    ∧ length (lb_users body)
      = (if decide (limit = 0) then leaderboard_matching us - skip
         else limit `min` (leaderboard_matching us - skip))
    ∧ leaderboard_matching us ≤ lb_total body
    ∧ length (lb_users body) ≤ lb_total body.
Proof.
  eexists. split; [reflexivity|]. cbn [lb_users lb_total].
  assert (Hlen : length (merge_sort amountWon_desc
                           (filter has_username (map_to_list us)))
                 = leaderboard_matching us).
  { rewrite leaderboard_sorted_Permutation. apply length_map_to_list. }
  assert (Hle : leaderboard_matching us ≤ size us)
    by apply map_size_filter.
  rewrite length_fmap.
  destruct limit as [|n]; simpl cursor_limit.
  - rewrite decide_True by done. rewrite length_drop, Hlen. lia.
  - rewrite decide_False by done. rewrite length_take, length_drop, Hlen.
    lia.
Qed.

(** ** bindWalletAddress and the users collection *)

Lemma findOne_walletAddress_Some (w : string) (us : gmap ObjectId User)
    (wu : ObjectId * User) :
  findOne_walletAddress w us = Some wu →
  us !! wu.1 = Some wu.2 ∧ walletAddress wu.2 = Some w.
Proof.
  unfold findOne_walletAddress. intros Hsome.
  apply head_Some_elem_of, list_elem_of_filter in Hsome as [Hw Hin].
  destruct wu as [k v]. by apply elem_of_map_to_list in Hin.
Qed.

(** Once the requester holds a wallet nobody else holds, [findOne] finds
    the requester. *)
Lemma findOne_walletAddress_after_save (w : string)
    (us : gmap ObjectId User) (id : ObjectId) (u : User) :
  findOne_walletAddress w us = None →
  ∃ wu, findOne_walletAddress w (<[id := set_walletAddress w u]> us) = Some wu
        ∧ wu.1 = id.
Proof.
  intros Hnone.
  destruct (findOne_walletAddress w (<[id := set_walletAddress w u]> us))
    as [[k v]|] eqn:Hf.
  - exists (k, v). split; [done|]. simpl.
    apply findOne_walletAddress_Some in Hf as [Hk Hw]. simpl in *.
    destruct (decide (id = k)) as [|Hne]; [done|].
    rewrite lookup_insert_ne in Hk by done.
    by destruct (findOne_walletAddress_None w us Hnone k v Hk).
  - destruct (findOne_walletAddress_None w _ Hf id (set_walletAddress w u)).
    + by rewrite lookup_insert_eq.
    + done.
Qed.

(** X9: binding keeps wallet addresses unique.  If no two stored users hold
    the same wallet address before a request, none do after it, whatever the
    request and whatever it was answered. *)
Theorem bindWalletAddress_keeps_wallets_unique
    (req : BindRequest) (us : gmap ObjectId User) :
  wallets_unique us →
  wallets_unique (bindWalletAddress req us).2.
Proof.
  intros Huniq. unfold bindWalletAddress.
  destruct (wallet_present (body_walletAddress req)) as [w|]; [|done].
  destruct (findOne_walletAddress w us) as [wu|] eqn:Hf.
  { by case_bool_decide. }
  unfold getUserById, saveUser.
  destruct (us !! ru_id (bind_user req)) as [u0|] eqn:Hu; [|done].
  cbn -[bind_respond]. intros i j u v Hi Hj Hsome Heq.
  pose proof (findOne_walletAddress_None w us Hf) as Hfree.
  destruct (decide (ru_id (bind_user req) = i)) as [<-|Hni];
    destruct (decide (ru_id (bind_user req) = j)) as [<-|Hnj]; [done|..].
  - rewrite lookup_insert_eq in Hi. rewrite lookup_insert_ne in Hj by done.
    injection Hi as <-. simpl in Heq. by destruct (Hfree j v Hj).
  - rewrite lookup_insert_ne in Hi by done. rewrite lookup_insert_eq in Hj.
    injection Hj as <-. simpl in Heq. by destruct (Hfree i u Hi).
  - rewrite lookup_insert_ne in Hi, Hj by done. by eapply Huniq.
Qed.

Lemma sample_users_wallets_unique : wallets_unique sample_users.
Proof.
  assert (Hall : map_Forall
            (λ i u, map_Forall
               (λ j v, is_Some (walletAddress u) →
                       walletAddress u = walletAddress v → i = j)
               sample_users)
            sample_users).
  { apply (bool_decide_unpack _). vm_compute. reflexivity. }
  intros i j u v Hi Hj. exact (Hall i u Hi j v Hj).
Qed.

Lemma bindWalletAddress_keeps_wallets_unique_witness :
  wallets_unique
    (bindWalletAddress (mkBindRequest (Some "0xB0B") bob) sample_users).2.
Proof.
  apply (bindWalletAddress_keeps_wallets_unique
           (mkBindRequest (Some "0xB0B") bob) sample_users).
  apply sample_users_wallets_unique.
Defined.

(** X10: asking again changes nothing more.  The same request sent a second
    time, on the users collection the first one left, gets the same response
    and leaves that collection as it is; in particular the wallet saved
    behind the first 422 is not saved again and the second answer is still
    not a 201. *)
Theorem bindWalletAddress_repeated
    (req : BindRequest) (us : gmap ObjectId User) :
  bindWalletAddress req (bindWalletAddress req us).2
  = bindWalletAddress req us.
Proof.
  unfold bindWalletAddress at 2 3.
  destruct (wallet_present (body_walletAddress req)) as [w|] eqn:Hw.
  2:{ cbn. unfold bindWalletAddress. by rewrite Hw. }
  destruct (findOne_walletAddress w us) as [wu|] eqn:Hf.
  { case_bool_decide as Hid; cbn -[bind_respond];
      unfold bindWalletAddress; rewrite Hw, Hf; by case_bool_decide. }
  unfold getUserById, saveUser.
  destruct (us !! ru_id (bind_user req)) as [u|] eqn:Hu; cbn -[bind_respond].
  - unfold bindWalletAddress. rewrite Hw.
    destruct (findOne_walletAddress_after_save w us (ru_id (bind_user req)) u Hf)
      as (wu & -> & Hid).
    case_bool_decide as Hne; [done|]. by rewrite !bind_respond_422.
  - unfold bindWalletAddress. rewrite Hw, Hf. unfold getUserById.
    by rewrite Hu.
Qed.

(** X11: a bind request touches one document at most.  Every user other
    than the requester is stored after the call exactly as before, and the
    requester is either stored as before or with the requested wallet
    address and nothing else changed. *)
Theorem bindWalletAddress_touches_only_requester
    (req : BindRequest) (us : gmap ObjectId User) :
  (∀ k, k ≠ ru_id (bind_user req) →
        (bindWalletAddress req us).2 !! k = us !! k)
  ∧ ((bindWalletAddress req us).2 !! ru_id (bind_user req)
       = us !! ru_id (bind_user req)
     ∨ ∃ w u,
         body_walletAddress req = Some w
         ∧ us !! ru_id (bind_user req) = Some u
         ∧ (bindWalletAddress req us).2 !! ru_id (bind_user req)
           = Some (mkUser (username u) (name u) (profilePicture u) (Some w)
                     (admin u) (amountWon u))).
Proof.
  unfold bindWalletAddress.
  destruct (body_walletAddress req) as [w0|] eqn:Hbody; [|by split; [|left]].
  destruct (wallet_present (Some w0)) as [w|] eqn:Hw; [|by split; [|left]].
  assert (w0 = w) as ->.
  { destruct w0 as [|c w0]; simpl in Hw; congruence. }
  destruct (findOne_walletAddress w us) as [wu|].
  { case_bool_decide; by split; [|left]. }
  unfold getUserById, saveUser.
  destruct (us !! ru_id (bind_user req)) as [u|] eqn:Hu;
    cbn -[bind_respond]; [|by split; [|left]].
  split.
  - intros k Hk. by rewrite lookup_insert_ne.
  - right. exists w, u. by rewrite lookup_insert_eq.
Qed.

(** ** confirmEmail *)

(** The cases of [confirmEmail], with the answer and the collection each
    one leaves. *)
Lemma confirmEmail_cases
    (req : ConfirmRequest) (accounts : gmap ObjectId Account.t) :
  ((confirmEmail req accounts).1 = Returned (Sent 200 StatusOK)
   ↔ confirm_errors req = []
     ∧ ∃ a, accounts !! query_userId req = Some a
            ∧ truthy (Account.emailConfirmed a) = false
            ∧ Account.emailCode a = query_code req)
  ∧ (∀ a, (confirmEmail req accounts).1 = Returned (Sent 200 StatusOK) →
          accounts !! query_userId req = Some a →
          (confirmEmail req accounts).2
          = <[query_userId req := Account.set_emailConfirmed a]> accounts)
  ∧ ((confirmEmail req accounts).1 ≠ Returned (Sent 200 StatusOK) →
     (confirmEmail req accounts).2 = accounts).
Proof.
  unfold confirmEmail, Account.getUserById, Account.saveUser.
  destruct (confirm_errors req) as [|e es].
  2:{ split; [split; [done|by intros [? _]]|by split]. }
  destruct (accounts !! query_userId req) as [a|] eqn:Ha; cbn.
  2:{ split; [split; [done|by intros (_ & ? & ? & _)]|by split]. }
  destruct (truthy (Account.emailConfirmed a)) eqn:Hc; cbn.
  { split; [split; [done|]|by split].
    intros (_ & a' & [= <-] & Hc' & _). congruence. }
  case_bool_decide as Hcode; cbn.
  - split; [split; [|done]|split; [|done]].
    + intros _. split; [done|]. by exists a.
    + by intros a' _ [= <-].
  - split; [split; [done|]|by split].
    intros (_ & a' & [= <-] & _ & Hcode'). done.
Qed.

(** X12: when an email gets confirmed.  [confirmEmail] answers 200 exactly
    when validation passed, the user is stored, its email was not confirmed
    yet and the code of the request is the user's emailCode; then the user is
    stored with emailConfirmed = true, its other paths as they were, and no
    other document changes.  Whenever the answer is not that 200, the
    collection is left as it was. *)
Theorem confirmEmail_confirms_on_code_only
    (req : ConfirmRequest) (accounts : gmap ObjectId Account.t) :
  ((confirmEmail req accounts).1 = Returned (Sent 200 StatusOK)
   ↔ confirm_errors req = []
     ∧ ∃ a, accounts !! query_userId req = Some a
            ∧ truthy (Account.emailConfirmed a) = false
            ∧ Account.emailCode a = query_code req)
  ∧ (∀ a, (confirmEmail req accounts).1 = Returned (Sent 200 StatusOK) →
          accounts !! query_userId req = Some a →
          (confirmEmail req accounts).2
          = <[query_userId req := Account.set_emailConfirmed a]> accounts
          ∧ (∃ a', (confirmEmail req accounts).2 !! query_userId req = Some a'
                   ∧ Account.emailConfirmed a' = Some true
                   ∧ a' = Account.mk (Account.profile a) (Account.phone a)
                            (Account.email a) (Account.confirmed a)
                            (Some true) (Account.emailCode a)
                            (Account.ref a))
          ∧ (∀ k, k ≠ query_userId req →
                  (confirmEmail req accounts).2 !! k = accounts !! k))
  ∧ ((confirmEmail req accounts).1 ≠ Returned (Sent 200 StatusOK) →
     (confirmEmail req accounts).2 = accounts).
Proof.
  destruct (confirmEmail_cases req accounts) as (Hiff & Hsaved & Hkept).
  split; [done|]. split; [|done].
  intros a Hok Ha. rewrite (Hsaved a Hok Ha).
  split; [done|]. split.
  - eexists. rewrite lookup_insert_eq. by split.
  - intros k Hk. by rewrite lookup_insert_ne.
Qed.

Lemma confirmEmail_200_inv
    (req : ConfirmRequest) (accounts : gmap ObjectId Account.t) :
  (confirmEmail req accounts).1 = Returned (Sent 200 StatusOK) →
  ∃ a, accounts !! query_userId req = Some a
       ∧ (confirmEmail req accounts).2
         = <[query_userId req := Account.set_emailConfirmed a]> accounts.
Proof.
  unfold confirmEmail, Account.getUserById, Account.saveUser.
  destruct (confirm_errors req) as [|e es]; [|done].
  destruct (accounts !! query_userId req) as [a|] eqn:Ha; cbn; [|done].
  destruct (truthy (Account.emailConfirmed a)); cbn; [done|].
  case_bool_decide; cbn; [|done]. intros _. by exists a.
Qed.

(** X13: an email is confirmed once.  After a 200, every further
    [confirmEmail] for the same user that passes validation is answered 403,
    whatever code it carries, and changes nothing. *)
Theorem confirmEmail_second_time_forbidden
    (req again : ConfirmRequest) (accounts : gmap ObjectId Account.t) :
  (confirmEmail req accounts).1 = Returned (Sent 200 StatusOK) →
  query_userId again = query_userId req →
  confirm_errors again = [] →
  confirmEmail again (confirmEmail req accounts).2
  = (Returned (NextError 403 "The email has been already confirmed"),
     (confirmEmail req accounts).2).
Proof.
  intros Hok Hid Hvalid.
  apply confirmEmail_200_inv in Hok as (a & Ha & ->).
  unfold confirmEmail, Account.getUserById. rewrite Hvalid, Hid.
  by rewrite lookup_insert_eq.
Qed.

Lemma confirmEmail_second_time_forbidden_witness :
  confirmEmail (mkConfirmRequest [] (Some "4711") "u7")
    (confirmEmail (mkConfirmRequest [] (Some "4711") "u7") sample_accounts).2
  = (Returned (NextError 403 "The email has been already confirmed"),
     (confirmEmail (mkConfirmRequest [] (Some "4711") "u7")
        sample_accounts).2).
Proof.
  apply (confirmEmail_second_time_forbidden
           (mkConfirmRequest [] (Some "4711") "u7")
           (mkConfirmRequest [] (Some "4711") "u7") sample_accounts).
  - vm_compute. reflexivity.
  - reflexivity.
  - reflexivity.
Defined.

Lemma confirmEmail_confirms_on_code_only_witness :
  ((confirmEmail (mkConfirmRequest [] (Some "4711") "u7") sample_accounts).2
   = <["u7" := Account.set_emailConfirmed carol_account]> sample_accounts
   ∧ (∃ a', (confirmEmail (mkConfirmRequest [] (Some "4711") "u7")
               sample_accounts).2 !! "u7" = Some a'
            ∧ Account.emailConfirmed a' = Some true
            ∧ a' = Account.mk (mkUser (Some "carol") None None None None 0)
                     (Some "+491") (Some "carol@example.org") None
                     (Some true) (Some "4711") (Some "u8"))
   ∧ (∀ k, k ≠ "u7" →
           (confirmEmail (mkConfirmRequest [] (Some "4711") "u7")
              sample_accounts).2 !! k = sample_accounts !! k))
  ∧ (confirmEmail (mkConfirmRequest [] (Some "0000") "u7") sample_accounts).2
    = sample_accounts.
Proof.
  split.
  - destruct (confirmEmail_confirms_on_code_only
                (mkConfirmRequest [] (Some "4711") "u7") sample_accounts)
      as (_ & Hsaved & _).
    apply (Hsaved carol_account); vm_compute; reflexivity.
  - destruct (confirmEmail_confirms_on_code_only
                (mkConfirmRequest [] (Some "0000") "u7") sample_accounts)
      as (_ & _ & Hkept).
    apply Hkept. vm_compute. discriminate.
Defined.

Lemma bindWalletAddress_touches_only_requester_witness :
  (bindWalletAddress (mkBindRequest (Some "0xB0B") bob) sample_users).2 !! "u1"
  = sample_users !! "u1".
Proof.
  destruct (bindWalletAddress_touches_only_requester
              (mkBindRequest (Some "0xB0B") bob) sample_users) as [Hother _].
  apply Hother. simpl. discriminate.
Defined.

(** ** rewardRefUserIfNotConfirmed and saveAcceptConditions *)

Section rewards_facts.
Context {W : Type}.
Variable rewardRefUser :
  option string → gmap ObjectId Account.t * W →
  Outcome unit * (gmap ObjectId Account.t * W).
Variable createUser :
  ObjectId → Account.t → gmap ObjectId Account.t * W →
  Outcome Account.t * (gmap ObjectId Account.t * W).

Lemma truthy_Some_true (b : option bool) : truthy b = true → b = Some true.
Proof. by destruct b as [[]|]. Qed.

(** X14: what [rewardRefUserIfNotConfirmed] hands back.  Whenever it
    returns, the value is true and the user object is confirmed, so the value
    does not tell a caller whether anything changed; and for a user that was
    confirmed already neither service is run: the state and the user object
    are as before. *)
Theorem rewardRefUserIfNotConfirmed_returns_true
    (user user' : ObjectId * Account.t) (r : option bool)
    (st st' : gmap ObjectId Account.t * W) :
  rewardRefUserIfNotConfirmed rewardRefUser createUser user st
    = (Returned (r, user'), st') →
  r = Some true
  ∧ Account.confirmed user'.2 = Some true
  ∧ user'.1 = user.1
  ∧ (Account.confirmed user.2 = Some true → st' = st ∧ user' = user).
Proof.
  unfold rewardRefUserIfNotConfirmed.
  destruct (truthy (Account.confirmed user.2)) eqn:Hc; cbn.
  - intros [= <- <- <-]. apply truthy_Some_true in Hc. by rewrite Hc.
  - destruct (rewardRefUser _ _) as [[[]|e] st1]; [|done].
    destruct (createUser _ _ _) as [[a|e] st2]; [|done].
    intros [= <- <- <-]. cbn.
    split; [done|]. split; [done|]. split; [done|].
    intros Hyes. by rewrite Hyes in Hc.
Qed.

Lemma saveAcceptConditions_confirmed
    (req : AcceptRequest) (st : gmap ObjectId Account.t * W)
    (a : Account.t) :
  accept_errors req = [] →
  st.1 !! ru_id (accept_user req) = Some a →
  Account.confirmed a = Some true →
  saveAcceptConditions rewardRefUser createUser req st
  = (Sent 201 (mkAcceptBody (Some true)),
     (<[ru_id (accept_user req) := a]> st.1, st.2)).
Proof.
  intros Hvalid Ha Hc.
  unfold saveAcceptConditions, rewardRefUserIfNotConfirmed,
    Account.getUserById, Account.saveUser.
  rewrite Hvalid, Ha. cbn. rewrite Hc. cbn. by rewrite Hc.
Qed.

(** X15: what a 201 of [saveAcceptConditions] means.  The body says
    confirmed: true, the requester is stored with confirmed true, and the
    same request on the state the call left is answered by the same 201 and
    leaves that state as it is: accepting again runs neither the referrer
    reward nor the user creation a second time. *)
Theorem saveAcceptConditions_201
    (req : AcceptRequest) (body : AcceptBody)
    (st st' : gmap ObjectId Account.t * W) :
  saveAcceptConditions rewardRefUser createUser req st = (Sent 201 body, st') →
  ab_confirmed body = Some true
  ∧ (∃ a, st'.1 !! ru_id (accept_user req) = Some a
          ∧ Account.confirmed a = Some true)
  ∧ saveAcceptConditions rewardRefUser createUser req st'
    = (Sent 201 body, st').
Proof.
  intros Hres.
  assert (Hinv : accept_errors req = []
                 ∧ body = mkAcceptBody (Some true)
                 ∧ ∃ a accounts w,
                     st' = (<[ru_id (accept_user req) := a]> accounts, w)
                     ∧ Account.confirmed a = Some true).
  { revert Hres.
    unfold saveAcceptConditions, rewardRefUserIfNotConfirmed,
      Account.getUserById, Account.saveUser.
    destruct (accept_errors req) as [|e es]; [|done].
    destruct (st.1 !! ru_id (accept_user req)) as [a|] eqn:Ha; cbn; [|done].
    destruct (truthy (Account.confirmed a)) eqn:Hc; cbn.
    - rewrite Hc. cbn. apply truthy_Some_true in Hc.
      intros [= <- <-]. rewrite Hc. split; [done|]. split; [done|].
      by exists a, st.1, st.2.
    - destruct (rewardRefUser _ _) as [[[]|e] st1]; [|done].
      destruct (createUser _ _ _) as [[a1|e] st2]; [|done]. cbn.
      intros [= <- <-]. split; [done|]. split; [done|].
      by exists (Account.set_confirmed a1), st2.1, st2.2. }
  destruct Hinv as (Hvalid & -> & a & accounts & w & -> & Hc).
  split; [done|]. split.
  - exists a. cbn. by rewrite lookup_insert_eq.
  - rewrite (saveAcceptConditions_confirmed req _ a); cbn;
      [|done|by rewrite lookup_insert_eq|done].
    by rewrite insert_insert_eq.
Qed.
End rewards_facts.

Lemma rewardRefUserIfNotConfirmed_returns_true_witness :
  Some true = Some true
  ∧ Account.confirmed (Account.set_confirmed carol_account) = Some true
  ∧ "u7" = "u7"
  ∧ (Account.confirmed carol_account = Some true →
     (sample_accounts, 1050) = (sample_accounts, 0)
     ∧ ("u7", Account.set_confirmed carol_account) = ("u7", carol_account)).
Proof.
  apply (rewardRefUserIfNotConfirmed_returns_true pay_referrer grant_new_user
           ("u7", carol_account) ("u7", Account.set_confirmed carol_account)
           (Some true) (sample_accounts, 0) (sample_accounts, 1050)).
  vm_compute. reflexivity.
Defined.

Lemma saveAcceptConditions_201_witness :
  ab_confirmed (mkAcceptBody (Some true)) = Some true
  ∧ (∃ a, carol_accepted.1 !! ru_id (mkRequestingUser "u7" None) = Some a
          ∧ Account.confirmed a = Some true)
  ∧ saveAcceptConditions pay_referrer grant_new_user
      (mkAcceptRequest [] (mkRequestingUser "u7" None)) carol_accepted
    = (Sent 201 (mkAcceptBody (Some true)), carol_accepted).
Proof.
  apply (saveAcceptConditions_201 pay_referrer grant_new_user
           (mkAcceptRequest [] (mkRequestingUser "u7" None))
           (mkAcceptBody (Some true)) (sample_accounts, 0) carol_accepted).
  vm_compute. reflexivity.
Defined.

(** ** saveAdditionalInformation *)

Lemma replace_first_space_spaces (s : string) :
  spaces (replace_first_space s) = pred (spaces s).
Proof.
  induction s as [|c s IH]; [done|]. simpl.
  destruct (Ascii.eqb c Ascii.Space) eqn:Hc; simpl.
  - done.
  - by rewrite Hc.
Qed.

Section saveAdditionalInformation_facts.
Context {W : Type}.
Variable rewardRefUser :
  option string → gmap ObjectId Account.t * W →
  Outcome unit * (gmap ObjectId Account.t * W).
Variable createUser :
  ObjectId → Account.t → gmap ObjectId Account.t * W →
  Outcome Account.t * (gmap ObjectId Account.t * W).
Variable sendConfirmMail :
  ObjectId → Account.t → gmap ObjectId Account.t * W →
  Outcome Account.t * (gmap ObjectId Account.t * W).

(** The username path: validation passed, the requester is stored, a
    username is given, no email is, and nobody else holds the username as
    given. *)
Lemma saveAdditionalInformation_username_path
    (req : InfoRequest) (st : gmap ObjectId Account.t * W)
    (a : Account.t) (raw : string) :
  info_errors req = None →
  st.1 !! ru_id (info_user req) = Some a →
  truthy_string (body_username req) = Some raw →
  truthy_string (body_email req) = None →
  (∀ f, findOne_username raw st.1 = Some f → f.1 = ru_id (info_user req)) →
  saveAdditionalInformation rewardRefUser createUser sendConfirmMail req st
  = (ReplySent 201
       (mkInfoBody (ru_id (info_user req)) (Account.phone a)
          (Some (replace_first_space raw)) (Account.email a)),
     (<[ru_id (info_user req) :=
          set_username_name (replace_first_space raw) (body_name req) a]>
        st.1,
      st.2)).
Proof.
  intros Hvalid Ha Hname Hmail Hfree.
  unfold saveAdditionalInformation, Account.getUserById.
  rewrite Hvalid, Ha, Hname. cbn.
  assert (Hclaim : claim_path (findOne_username raw st.1)
                     (Some (ru_id (info_user req), a))
                     "Username is already used" "username"
                     (set_username_name (replace_first_space raw)
                        (body_name req))
                   = inr (ru_id (info_user req),
                          set_username_name (replace_first_space raw)
                            (body_name req) a)).
  { unfold claim_path.
    destruct (findOne_username raw st.1) as [f|]; [|done].
    rewrite bool_decide_eq_false_2; [done|].
    intros Hne. apply Hne. by apply Hfree. }
  rewrite Hclaim. unfold info_email. by rewrite Hmail.
Qed.

(** X16: what a new username stores.  On the username path (validation
    passed, the requester is stored, no email is given and nobody else holds
    the username as given) the answer is a 201 whose [name] is the stored
    username; the stored username is the given one with its first space
    removed and no other, so it has one space less than given and still has
    one when two or more were given; the stored name is the name of the
    request, also when the request has none; no other document changes. *)
Theorem saveAdditionalInformation_stores_username
    (req : InfoRequest) (st : gmap ObjectId Account.t * W)
    (a : Account.t) (raw : string) :
  info_errors req = None →
  st.1 !! ru_id (info_user req) = Some a →
  truthy_string (body_username req) = Some raw →
  truthy_string (body_email req) = None →
  (∀ f, findOne_username raw st.1 = Some f → f.1 = ru_id (info_user req)) →
  ∃ body st' a',
    saveAdditionalInformation rewardRefUser createUser sendConfirmMail req st
      = (ReplySent 201 body, st')
    ∧ st'.1 !! ru_id (info_user req) = Some a'
    ∧ username (Account.profile a') = Some (replace_first_space raw)
    ∧ spaces (replace_first_space raw) = pred (spaces raw)
    ∧ ib_name body = username (Account.profile a')
    ∧ name (Account.profile a') = body_name req
    ∧ (∀ k, k ≠ ru_id (info_user req) → st'.1 !! k = st.1 !! k)
    ∧ st'.2 = st.2.
Proof.
  intros Hvalid Ha Hname Hmail Hfree.
  rewrite (saveAdditionalInformation_username_path req st a raw) by done.
  eexists _, _, _. split; [done|]. cbn.
  split; [by rewrite lookup_insert_eq|]. cbn.
  split; [done|]. split; [apply replace_first_space_spaces|].
  split; [done|]. split; [done|]. split; [|done].
  intros k Hk. by rewrite lookup_insert_ne.
Qed.

(** X17: the username check can be passed with a username that is taken.
    The check looks up the username as given, the store gets it with its
    first space removed.  So when another user holds [n], and the request
    gives a different string that becomes [n] once its first space is
    removed and that nobody holds, the request is answered 201 and two
    users hold the username [n] afterwards. *)
Theorem saveAdditionalInformation_duplicates_username
    (req : InfoRequest) (st : gmap ObjectId Account.t * W)
    (a b : Account.t) (other : ObjectId) (raw n : string) :
  info_errors req = None →
  st.1 !! ru_id (info_user req) = Some a →
  st.1 !! other = Some b →
  other ≠ ru_id (info_user req) →
  username (Account.profile b) = Some n →
  truthy_string (body_username req) = Some raw →
  truthy_string (body_email req) = None →
  replace_first_space raw = n →
  findOne_username raw st.1 = None →
  ∃ body st' a' b',
    saveAdditionalInformation rewardRefUser createUser sendConfirmMail req st
      = (ReplySent 201 body, st')
    ∧ st'.1 !! ru_id (info_user req) = Some a'
    ∧ st'.1 !! other = Some b'
    ∧ username (Account.profile a') = Some n
    ∧ username (Account.profile b') = Some n.
Proof.
  intros Hvalid Ha Hb Hne Hn Hname Hmail Hraw Hnone.
  rewrite (saveAdditionalInformation_username_path req st a raw);
    [|done..|by rewrite Hnone].
  eexists _, _, _, b. split; [done|]. cbn.
  split; [by rewrite lookup_insert_eq|].
  split; [by rewrite lookup_insert_ne|].
  split; [by rewrite Hraw|done].
Qed.
End saveAdditionalInformation_facts.

Lemma saveAdditionalInformation_stores_username_witness :
  ∃ body st' a',
    saveAdditionalInformation pay_referrer grant_new_user deliver_mail
      (mkInfoRequest None None None (Some "c a r o l")
         (mkRequestingUser "u7" None))
      (sample_accounts, 0)
      = (ReplySent 201 body, st')
    ∧ st'.1 !! "u7" = Some a'
    ∧ username (Account.profile a') = Some "ca r o l"
    ∧ spaces "ca r o l" = pred (spaces "c a r o l")
    ∧ ib_name body = username (Account.profile a')
    ∧ name (Account.profile a') = None
    ∧ (∀ k, k ≠ "u7" → st'.1 !! k = sample_accounts !! k)
    ∧ st'.2 = 0.
Proof.
  apply (saveAdditionalInformation_stores_username pay_referrer grant_new_user
           deliver_mail
           (mkInfoRequest None None None (Some "c a r o l")
              (mkRequestingUser "u7" None))
           (sample_accounts, 0) carol_account "c a r o l").
  - reflexivity.
  - vm_compute. reflexivity.
  - reflexivity.
  - reflexivity.
  - intros f Hf. vm_compute in Hf. discriminate.
Defined.

Lemma saveAdditionalInformation_duplicates_username_witness :
  ∃ body st' a' b',
    saveAdditionalInformation pay_referrer grant_new_user deliver_mail
      (mkInfoRequest None None None (Some "da ve")
         (mkRequestingUser "u7" None))
      (sample_accounts, 0)
      = (ReplySent 201 body, st')
    ∧ st'.1 !! "u7" = Some a'
    ∧ st'.1 !! "u8" = Some b'
    ∧ username (Account.profile a') = Some "dave"
    ∧ username (Account.profile b') = Some "dave".
Proof.
  apply (saveAdditionalInformation_duplicates_username pay_referrer
           grant_new_user deliver_mail
           (mkInfoRequest None None None (Some "da ve")
              (mkRequestingUser "u7" None))
           (sample_accounts, 0) carol_account dave_account "u8" "da ve"
           "dave").
  - reflexivity.
  - vm_compute. reflexivity.
  - vm_compute. reflexivity.
  - discriminate.
  - reflexivity.
  - reflexivity.
  - reflexivity.
  - reflexivity.
  - vm_compute. reflexivity.
Defined.
